(** * server.js: the presence-and-broadcast hub of the chat

    A shallow embedding of the Socket.IO server (validation utilities, the
    [users] registry, [broadcastOnline] and the four event handlers) and the
    properties of the specification that were checked against it. *)

From Stdlib Require Import ZArith NArith Ascii String.
From stdpp Require Import gmap strings list fin_maps pretty.

Set Warnings "-register-all".
Local Open Scope N_scope.

(** ** JavaScript strings

    A JavaScript string is a sequence of UTF-16 code units; [length],
    [substring], [\s] and [trim] all work on code units. *)

Abbreviation jsstring := (list N) (only parsing).

(** The source file is UTF-8 text; [utf16] reads a literal of the source as
    the code units it denotes: one for a sequence of one, two or three
    bytes, a surrogate pair for a sequence of four. *)
Fixpoint utf16 (bytes : string) : jsstring :=
  match bytes with
  | EmptyString => []
  | String a rest =>
      let b0 := N_of_ascii a in
      if b0 <? 128 then b0 :: utf16 rest
      else if b0 <? 224 then
        match rest with
        | String a1 rest1 =>
            ((b0 - 192) * 64 + (N_of_ascii a1 - 128)) :: utf16 rest1
        | EmptyString => []
        end
      else if b0 <? 240 then
        match rest with
        | String a1 (String a2 rest2) =>
            ((b0 - 224) * 4096 + (N_of_ascii a1 - 128) * 64
             + (N_of_ascii a2 - 128)) :: utf16 rest2
        | _ => []
        end
      else
        match rest with
        | String a1 (String a2 (String a3 rest3)) =>
            let cp := (b0 - 240) * 262144 + (N_of_ascii a1 - 128) * 4096
                      + (N_of_ascii a2 - 128) * 64 + (N_of_ascii a3 - 128) in
            (55296 + (cp - 65536) / 1024)
              :: (56320 + (cp - 65536) mod 1024) :: utf16 rest3
        | _ => []
        end
  end.

Definition SPACE : N := 32.

(** The class [\s] of a regular expression, which is also the set that
    [String.prototype.trim] strips: WhiteSpace and LineTerminator. *)
Definition is_ws (c : N) : bool :=
  ((9 <=? c) && (c <=? 13))            (* TAB LF VT FF CR *)
  || (c =? 32) || (c =? 160)           (* SP, NBSP *)
  || (c =? 5760)                       (* U+1680 *)
  || ((8192 <=? c) && (c <=? 8202))    (* U+2000 .. U+200A *)
  || (c =? 8232) || (c =? 8233)        (* LS, PS *)
  || (c =? 8239) || (c =? 8287)        (* U+202F, U+205F *)
  || (c =? 12288) || (c =? 65279).     (* U+3000, U+FEFF *)

(** [str.substring(0, maxLen)]: a negative end counts as 0 and an end past
    the length as the length. *)
Definition substring0 (str : jsstring) (maxLen : Z) : jsstring :=
  take (Z.to_nat maxLen) str.

(** [str.replace(/\s+/g, ' ')]: every maximal run of whitespace becomes one
    space.  [in_run] tells that the previous code unit was whitespace. *)
Fixpoint replace_ws_runs (in_run : bool) (str : jsstring) : jsstring :=
  match str with
  | [] => []
  | c :: rest =>
      if is_ws c
      then (if in_run then replace_ws_runs true rest
            else SPACE :: replace_ws_runs true rest)
      else c :: replace_ws_runs false rest
  end.

Fixpoint trimStart (str : jsstring) : jsstring :=
  match str with
  | [] => []
  | c :: rest => if is_ws c then trimStart rest else str
  end.

Definition trimEnd (str : jsstring) : jsstring :=
  reverse (trimStart (reverse str)).

Definition trim (str : jsstring) : jsstring := trimEnd (trimStart str).

(** ** JavaScript values, as far as a Socket.IO payload can carry them *)

Inductive JsNum : Type :=
| NumNaN
| NumInfinity (negative : bool)
| NumFinite (negative : bool) (mantissa : N) (exponent : Z).

Inductive JsValue : Type :=
| JUndefined
| JNull
| JBool (b : bool)
| JNumber (n : JsNum)
| JString (s : jsstring)
| JArray (items : list JsValue)
| JObject (fields : list (jsstring * JsValue)).

Fixpoint get_field (key : jsstring) (fields : list (jsstring * JsValue)) : JsValue :=
  match fields with
  | [] => JUndefined
  | (k, v) :: rest => if decide (k = key) then v else get_field key rest
  end.

(** [v?.key]: [undefined] on [null] and [undefined]; a primitive or an array
    has no such own or inherited property. *)
Definition optional_get (v : JsValue) (key : jsstring) : JsValue :=
  match v with
  | JObject fields => get_field key fields
  | _ => JUndefined
  end.

(** ToBoolean, as used by [!x], [!!x], [a || b]. *)
Definition truthy (v : JsValue) : bool :=
  match v with
  | JUndefined | JNull => false
  | JBool b => b
  | JNumber NumNaN => false
  | JNumber (NumInfinity _) => true
  | JNumber (NumFinite _ m _) => negb (m =? 0)
  | JString s => match s with [] => false | _ => true end
  | JArray _ | JObject _ => true
  end.

(** ** Validation utilities *)

Definition sanitize (str : JsValue) (maxLen : Z) : jsstring :=
  match str with
  | JString s => trim (replace_ws_runs false (substring0 s maxLen))
  | _ => []
  end.

(** [name || null]: the empty string is the only falsy string. *)
Definition or_null (s : jsstring) : option jsstring :=
  match s with
  | [] => None
  | _ => Some s
  end.

Definition validateName (raw : JsValue) : option jsstring :=
  let name := sanitize raw 40 in
  or_null name.

Definition validateText (raw : JsValue) : option jsstring :=
  let text := sanitize raw 1000 in
  or_null text.

(** The normalization as the specification words it: coerce, collapse,
    trim, and truncate the result. *)
Definition coerce_text (raw : JsValue) : jsstring :=
  match raw with
  | JString s => s
  | _ => []
  end.

Definition normalizeText_spec (raw : JsValue) (maxLen : Z) : jsstring :=
  substring0 (trim (replace_ws_runs false (coerce_text raw))) maxLen.

Definition validateName_spec (raw : JsValue) : option jsstring :=
  or_null (normalizeText_spec raw 40).

(** Every whitespace code unit of [str] is a space that is not followed by
    whitespace. *)
Fixpoint single_spaced (str : jsstring) : bool :=
  match str with
  | [] => true
  | c :: rest =>
      (if is_ws c
       then (c =? SPACE) && match rest with d :: _ => negb (is_ws d) | [] => true end
       else true)
      && single_spaced rest
  end.

(** ** The registry and what the hub sends *)

Abbreviation SocketId := (list N) (only parsing).

(** [users: socket.id -> { name }] *)
Record User : Type := { name : jsstring }.

Inductive NoticeType : Type := NoticeJoin | NoticeLeave.

Record Message : Type :=
  { id : jsstring; author : jsstring; text : jsstring; ts : Z }.

(** The events of the server, by their names on the wire. *)
Inductive Outbound : Type :=
| online_count (count : nat)
| system_message (type : NoticeType) (text : jsstring)
| joined (name : jsstring)
| error_message (text : jsstring)
| chat_message (message : Message)
| typing (name : jsstring) (isTyping : bool) (id : SocketId).

(** [io.emit], [socket.broadcast.emit] and [socket.emit]. *)
Inductive Target : Type :=
| ToAll
| ToOthers (socket : SocketId)
| ToOne (socket : SocketId).

Inductive LogLine : Type :=
| LogJoined (name : jsstring) (socket : SocketId)
| LogJoinError (err : JsValue)
| LogChat (name text : jsstring)
| LogChatError (err : JsValue)
| LogDisconnected (name : jsstring) (socket : SocketId) (reason : JsValue)
| LogDisconnectedUnauth (socket : SocketId) (reason : JsValue).

Inductive Effect : Type :=
| Emit (to : Target) (event : Outbound)
| Log (line : LogLine).

(** The sockets an emission reaches, among the connected ones. *)
Definition recipients (connected : gset SocketId) (to : Target) : gset SocketId :=
  match to with
  | ToAll => connected
  | ToOthers socket => connected ∖ {[socket]}
  | ToOne socket => {[socket]}
  end.

Definition emits (trace : list Effect) : list (Target * Outbound) :=
  omap (fun e => match e with Emit to ev => Some (to, ev) | Log _ => None end) trace.

Definition MSG_BAD_NAME : jsstring :=
  Eval vm_compute in utf16 "Некорректное имя пользователя.".
Definition MSG_JOIN_FAILED : jsstring :=
  Eval vm_compute in utf16 "Ошибка при входе в чат.".
Definition MSG_NAME_FIRST : jsstring :=
  Eval vm_compute in utf16 "Сначала введите имя пользователя.".
Definition MSG_SEND_FAILED : jsstring :=
  Eval vm_compute in utf16 "Произошла ошибка при отправке сообщения.".
Definition TEXT_JOINED : jsstring :=
  Eval vm_compute in utf16 " присоединился(ась) к чату".
Definition TEXT_LEFT : jsstring :=
  Eval vm_compute in utf16 " вышел(ла) из чата".

(** ** The handler monad

    A handler reads and updates [users], talks to the outside (log lines,
    emissions, the clock, the random generator) and may be interrupted by
    an exception.  [tick] counts the log lines and emissions attempted so
    far, [reads] the readings of the clock and of the random generator. *)

Record State : Type := { users : gmap SocketId User; tick : nat; reads : nat }.

Definition initial : State := {| users := ∅; tick := 0; reads := 0 |}.

(** What the outside does: whether the [n]-th log line or emission throws
    (and what), and what the [k]-th reading is, as [Date.now()] and as
    [Math.random().toString(36)]. *)
Record Env : Type :=
  { fault : nat -> option JsValue;
    clock : nat -> Z;
    random36 : nat -> jsstring }.

Inductive Completion (A : Type) : Type :=
| Normal (a : A)
| Throw (err : JsValue).
Arguments Normal {A} a.
Arguments Throw {A} err.

Definition Hub (A : Type) : Type := State -> Completion A * State * list Effect.

Definition ret {A} (a : A) : Hub A := fun st => (Normal a, st, []).

Definition bind {A B} (m : Hub A) (f : A -> Hub B) : Hub B :=
  fun st =>
    match m st with
    | (Normal a, st1, t1) => let '(c, st2, t2) := f a st1 in (c, st2, t1 ++ t2)
    | (Throw err, st1, t1) => (Throw err, st1, t1)
    end.

#[export] Instance Hub_ret : MRet Hub := @ret.
#[export] Instance Hub_bind : MBind Hub := fun A B f m => bind m f.

(** [try { body } catch (err) { handler }] *)
Definition try_catch (body : Hub unit) (handler : JsValue -> Hub unit) : Hub unit :=
  fun st =>
    match body st with
    | (Normal a, st1, t1) => (Normal a, st1, t1)
    | (Throw err, st1, t1) =>
        let '(c, st2, t2) := handler err st1 in (c, st2, t1 ++ t2)
    end.

Definition completion_of {A} (r : Completion A * State * list Effect) := fst (fst r).
Definition state_of {A} (r : Completion A * State * list Effect) := snd (fst r).
Definition trace_of {A} (r : Completion A * State * list Effect) := snd r.

Definition advance (st : State) : State :=
  {| users := users st; tick := S (tick st); reads := reads st |}.

Definition advance_reads (st : State) : State :=
  {| users := users st; tick := tick st; reads := S (reads st) |}.

(** [s.slice(2, 8)] *)
Definition slice_2_8 (s : jsstring) : jsstring := take 6 (drop 2 s).

(** [err?.message || err] *)
Definition err_summary (err : JsValue) : JsValue :=
  let m := optional_get err (utf16 "message") in
  if truthy m then m else err.

(** The events a connection sends. *)
Inductive Inbound : Type :=
| EvJoin (rawName : JsValue)
| EvChatMessage (payload : JsValue)
| EvTyping (isTyping : JsValue)
| EvDisconnect (reason : JsValue).

Section Handlers.

Variable env : Env.

(** A call to the outside: it throws when the environment says so, and
    leaves its effect in the trace otherwise. *)
Definition external (eff : Effect) : Hub unit :=
  fun st =>
    match fault env (tick st) with
    | Some err => (Throw err, advance st, [])
    | None => (Normal tt, advance st, [eff])
    end.

Definition log (line : LogLine) : Hub unit := external (Log line).
Definition io_emit (ev : Outbound) : Hub unit := external (Emit ToAll ev).
Definition socket_broadcast_emit (socket : SocketId) (ev : Outbound) : Hub unit :=
  external (Emit (ToOthers socket) ev).
Definition socket_emit (socket : SocketId) (ev : Outbound) : Hub unit :=
  external (Emit (ToOne socket) ev).

Definition Date_now : Hub Z :=
  fun st => (Normal (clock env (reads st)), advance_reads st, []).
Definition Math_random_toString36 : Hub jsstring :=
  fun st => (Normal (random36 env (reads st)), advance_reads st, []).

Definition users_get (socket : SocketId) : Hub (option User) :=
  fun st => (Normal (users st !! socket), st, []).
Definition users_set (socket : SocketId) (u : User) : Hub unit :=
  fun st =>
    (Normal tt,
     {| users := <[socket := u]> (users st); tick := tick st; reads := reads st |},
     []).
Definition users_delete (socket : SocketId) : Hub unit :=
  fun st =>
    (Normal tt,
     {| users := delete socket (users st); tick := tick st; reads := reads st |},
     []).
Definition users_size : Hub nat :=
  fun st => (Normal (size (users st)), st, []).

Definition broadcastOnline : Hub unit :=
  count ← users_size;
  io_emit (online_count count).

Definition on_join (socket : SocketId) (rawName : JsValue) : Hub unit :=
  try_catch
    (match validateName rawName with
     | None => socket_emit socket (error_message MSG_BAD_NAME)
     | Some name =>
         users_set socket {| name := name |};;
         log (LogJoined name socket);;
         socket_broadcast_emit socket
           (system_message NoticeJoin (name ++ TEXT_JOINED));;
         socket_emit socket (joined name);;
         broadcastOnline
     end)
    (fun err =>
       log (LogJoinError (err_summary err));;
       socket_emit socket (error_message MSG_JOIN_FAILED)).

Definition on_chat_message (socket : SocketId) (payload : JsValue) : Hub unit :=
  try_catch
    (user ← users_get socket;
     match user with
     | None => socket_emit socket (error_message MSG_NAME_FIRST)
     | Some user =>
         match validateText (optional_get payload (utf16 "text")) with
         | None => mret tt
         | Some text =>
             now ← Date_now;
             rnd ← Math_random_toString36;
             now' ← Date_now;
             let message :=
               {| id := utf16 (pretty now) ++ utf16 "-" ++ slice_2_8 rnd;
                  author := name user;
                  text := text;
                  ts := now' |} in
             log (LogChat (name user) text);;
             io_emit (chat_message message)
         end
     end)
    (fun err =>
       log (LogChatError (err_summary err));;
       socket_emit socket (error_message MSG_SEND_FAILED)).

Definition on_typing (socket : SocketId) (isTyping : JsValue) : Hub unit :=
  user ← users_get socket;
  match user with
  | None => mret tt
  | Some user => io_emit (typing (name user) (truthy isTyping) socket)
  end.

Definition on_disconnect (socket : SocketId) (reason : JsValue) : Hub unit :=
  user ← users_get socket;
  users_delete socket;;
  match user with
  | Some user =>
      if truthy (JString (name user))          (* user?.name *)
      then
        log (LogDisconnected (name user) socket reason);;
        socket_broadcast_emit socket
          (system_message NoticeLeave (name user ++ TEXT_LEFT));;
        broadcastOnline
      else log (LogDisconnectedUnauth socket reason)
  | None => log (LogDisconnectedUnauth socket reason)
  end.

(** The handler registered for each event. *)
Definition handle (socket : SocketId) (ev : Inbound) : Hub unit :=
  match ev with
  | EvJoin rawName => on_join socket rawName
  | EvChatMessage payload => on_chat_message socket payload
  | EvTyping isTyping => on_typing socket isTyping
  | EvDisconnect reason => on_disconnect socket reason
  end.

(** The event loop: one event is handled to its end before the next; an
    exception that leaves a handler ends the process. *)
Fixpoint run (events : list (SocketId * Inbound)) : Hub unit :=
  match events with
  | [] => mret tt
  | (socket, ev) :: rest => handle socket ev;; run rest
  end.

End Handlers.

(** An environment in which no call to the outside fails. *)
Definition quiet (clock : nat -> Z) (random36 : nat -> jsstring) : Env :=
  {| fault := fun _ => None; clock := clock; random36 := random36 |}.

(** The environment in which exactly the [k]-th log line or emission
    throws [err]. *)
Definition failing_at (k : nat) (err : JsValue) : Env :=
  {| fault := fun n => if decide (n = k) then Some err else None;
     clock := fun _ => 0%Z;
     random36 := fun _ => [] |}.

(** ** The session state machine of the specification

    In the words of the specification: a connection is Unjoined until a
    join with a valid name makes it Joined, and Closed once it disconnects.
    [joined_connections] is the set of the connections in Joined after the
    given events. *)
Definition session_step (J : gset SocketId) (e : SocketId * Inbound) : gset SocketId :=
  match e with
  | (socket, EvJoin rawName) =>
      match validateName rawName with
      | Some _ => {[socket]} ∪ J
      | None => J
      end
  | (socket, EvDisconnect _) => J ∖ {[socket]}
  | _ => J
  end.

Definition joined_connections (events : list (SocketId * Inbound)) : gset SocketId :=
  fold_left session_step events ∅.

(** What an event does to the registry, whatever else happens while it is
    handled. *)
Definition registry_after (socket : SocketId) (ev : Inbound)
    (registry : gmap SocketId User) : gmap SocketId User :=
  match ev with
  | EvJoin rawName =>
      match validateName rawName with
      | Some name => <[socket := {| name := name |}]> registry
      | None => registry
      end
  | EvDisconnect _ => delete socket registry
  | EvChatMessage _ | EvTyping _ => registry
  end.

Definition no_fault (env : Env) : Prop := ∀ n, fault env n = None.

(** Every registered name is a non-empty string. *)
Definition names_valid (registry : gmap SocketId User) : Prop :=
  ∀ socket u, registry !! socket = Some u → name u ≠ [].

(** The states the server can be in: it starts with an empty registry and
    handles one event after the other, in whatever environment. *)
Inductive Reachable : State → Prop :=
| Reachable_initial : Reachable initial
| Reachable_step env socket ev st :
    Reachable st → Reachable (state_of (handle env socket ev st)).

(** The payload is an object whose [text] is a string. *)
Definition has_string_text (payload : JsValue) : bool :=
  match optional_get payload (utf16 "text") with
  | JString _ => true
  | _ => false
  end.

(** The addressing rules of an emission made while an event of [socket] is
    handled and the registry is [registry]: a count goes to everyone and is
    the size of the registry, an error goes to [socket] alone. *)
Definition emission_ok (socket : SocketId) (registry : gmap SocketId User)
    (e : Target * Outbound) : Prop :=
  match e with
  | (to, online_count n) => to = ToAll ∧ n = size registry
  | (to, error_message _) => to = ToOne socket
  | _ => True
  end.

(** The registry agrees with the history of events: its keys are the
    connections the state machine has in Joined, and every entry carries
    the validated name of a join that the connection sent. *)
Definition registry_history_ok (events : list (SocketId * Inbound))
    (registry : gmap SocketId User) : Prop :=
  dom registry = joined_connections events
  ∧ ∀ socket u, registry !! socket = Some u →
      name u ≠ []
      ∧ ∃ rawName, (socket, EvJoin rawName) ∈ events
                   ∧ validateName rawName = Some (name u).

(** At most one call to the outside fails. *)
Definition single_fault (env : Env) : Prop :=
  ∀ n m, is_Some (fault env n) → is_Some (fault env m) → n = m.

(** The handlers written as [try { ... } catch (err) { ... }], and what
    their catch block does with [err]. *)
Definition has_try_catch (ev : Inbound) : bool :=
  match ev with
  | EvJoin _ | EvChatMessage _ => true
  | EvTyping _ | EvDisconnect _ => false
  end.

Definition catch_effects (socket : SocketId) (ev : Inbound) (err : JsValue)
    : list Effect :=
  match ev with
  | EvJoin _ =>
      [ Log (LogJoinError (err_summary err));
        Emit (ToOne socket) (error_message MSG_JOIN_FAILED) ]
  | EvChatMessage _ =>
      [ Log (LogChatError (err_summary err));
        Emit (ToOne socket) (error_message MSG_SEND_FAILED) ]
  | EvTyping _ | EvDisconnect _ => []
  end.

(** What the specification asks of the handling of an event during which
    a call fails: the exception does not leave the handler, the trace ends
    with a log line and an error notice to the connection, and the registry
    is either as before the event or as after its complete handling. *)
Definition fault_contained (env : Env) (socket : SocketId) (ev : Inbound)
    (st : State) : Prop :=
  let r := handle env socket ev st in
  completion_of r = Normal tt
  ∧ (∃ before line text,
       trace_of r = before ++ [Log line; Emit (ToOne socket) (error_message text)])
  ∧ (users (state_of r) = users st
     ∨ users (state_of r) = registry_after socket ev (users st)).

(** ** A small session, used to exercise the statements below *)

Definition sample_env : Env :=
  quiet (fun k => 1700000000000 + Z.of_nat k)%Z (fun _ => utf16 "0.4fzyo82mvyr").

Definition socket_a : SocketId := utf16 "a".
Definition socket_b : SocketId := utf16 "b".

Definition two_joins : list (SocketId * Inbound) :=
  [ (socket_a, EvJoin (JString (utf16 "  Ann   ")));
    (socket_b, EvJoin (JString (utf16 "Bob"))) ].

Definition ann_joined : State :=
  state_of (handle sample_env socket_a (EvJoin (JString (utf16 "  Ann   "))) initial).

Definition boom : JsValue := JObject [(utf16 "message", JString (utf16 "boom"))].

(** * script.js: the client

    The validation of what the client sends and receives, the two sending
    operations of [Transport] and the debounce of the typing status. *)

(** What the transport puts on the wire for a message object of the
    server: the object with its four fields, [ts] being the integer that
    [Date.now()] gave. *)
Definition num_of_Z (z : Z) : JsNum :=
  NumFinite (z <? 0)%Z (Z.abs_N z) 0.

Definition message_payload (m : Message) : JsValue :=
  JObject [ (utf16 "id", JString (id m));
            (utf16 "author", JString (author m));
            (utf16 "text", JString (text m));
            (utf16 "ts", JNumber (num_of_Z (ts m))) ].

(** The object of a typing event on the wire. *)
Definition typing_payload (nm : jsstring) (isTyping : bool) (sid : SocketId) : JsValue :=
  JObject [ (utf16 "name", JString nm);
            (utf16 "isTyping", JBool isTyping);
            (utf16 "id", JString sid) ].

Module Client.

(** The outcome of an expression that may throw a TypeError. *)
Inductive Result (A : Type) : Type :=
| Ok (a : A)
| TypeError.
Arguments Ok {A} a.
Arguments TypeError {A}.

#[export] Instance Result_ret : MRet Result := @Ok.
#[export] Instance Result_bind : MBind Result :=
  fun A B f r => match r with Ok a => f a | TypeError => TypeError end.

Definition has_own (key : jsstring) (fields : list (jsstring * JsValue)) : bool :=
  existsb (fun kv => bool_decide (kv.1 = key)) fields.

(** [typeof v === 'object'] *)
Definition typeof_object (v : JsValue) : bool :=
  match v with
  | JNull | JArray _ | JObject _ => true
  | _ => false
  end.

(** [x ?? dflt] *)
Definition nullish_or (x dflt : JsValue) : JsValue :=
  match x with
  | JUndefined | JNull => dflt
  | _ => x
  end.

(** [s.slice(0, max)]: a negative end counts from the end of the string. *)
Definition slice0 (s : jsstring) (max : Z) : jsstring :=
  if (max <? 0)%Z
  then take (Z.to_nat (Z.of_nat (length s) + max)) s
  else take (Z.to_nat max) s.

Definition is_empty (s : jsstring) : bool :=
  match s with [] => true | _ => false end.

Definition is_primitive (v : JsValue) : bool :=
  match v with
  | JArray _ | JObject _ => false
  | _ => true
  end.

(** [Number.isFinite(n)] and [n <= 0] *)
Definition isFinite (n : JsNum) : bool :=
  match n with NumFinite _ _ _ => true | _ => false end.

Definition le_zero (n : JsNum) : bool :=
  match n with
  | NumNaN => false
  | NumInfinity negative => negative
  | NumFinite negative mantissa _ => negative || (mantissa =? 0)
  end.

Section Coercions.

(** The two conversions of the language between numbers and text. *)
Variable Number_toString : JsNum -> jsstring.
Variable StringToNumber : jsstring -> JsNum.

(** [String(v)].  The values come from the wire and hold no function: an
    object with an own [toString] has no usable conversion and the call
    throws; any other object prints as [[object Object]]; an array joins
    its elements with commas, [null] and [undefined] printing as
    nothing. *)
Fixpoint ToString (v : JsValue) : Result jsstring :=
  match v with
  | JUndefined => Ok (utf16 "undefined")
  | JNull => Ok (utf16 "null")
  | JBool b => Ok (if b then utf16 "true" else utf16 "false")
  | JNumber n => Ok (Number_toString n)
  | JString s => Ok s
  | JArray items =>
      (fix join (l : list JsValue) : Result jsstring :=
         match l with
         | [] => Ok []
         | x :: rest =>
             match (match x with
                    | JUndefined | JNull => Ok []
                    | _ => ToString x
                    end) with
             | TypeError => TypeError
             | Ok sx =>
                 match rest with
                 | [] => Ok sx
                 | _ :: _ =>
                     match join rest with
                     | Ok sr => Ok (sx ++ utf16 "," ++ sr)
                     | TypeError => TypeError
                     end
                 end
             end
         end) items
  | JObject fields =>
      if has_own (utf16 "toString") fields then TypeError
      else Ok (utf16 "[object Object]")
  end.

(** [Number(v)] *)
Definition ToNumber (v : JsValue) : Result JsNum :=
  match v with
  | JUndefined => Ok NumNaN
  | JNull => Ok (NumFinite false 0 0)
  | JBool b => Ok (NumFinite false (if b then 1 else 0) 0)
  | JNumber n => Ok n
  | JString s => Ok (StringToNumber s)
  | JArray _ | JObject _ => s ← ToString v; Ok (StringToNumber s)
  end.

Definition sanitizeText (str : JsValue) (max : Z) : Result jsstring :=
  s ← ToString (nullish_or str (JString []));
  Ok (slice0 (trim (replace_ws_runs false s)) max).

Record Incoming : Type :=
  { author : jsstring; text : jsstring; ts : JsNum }.

(** [nowTs] is the reading of [Date.now()] taken when [ts] is unusable. *)
Definition validateIncomingMessage (nowTs : JsNum) (msg : JsValue)
    : Result (option Incoming) :=
  if negb (typeof_object msg) || match msg with JNull => true | _ => false end
  then Ok None
  else
    author ← sanitizeText (optional_get msg (utf16 "author")) 40;
    text ← sanitizeText (optional_get msg (utf16 "text")) 1000;
    ts ← ToNumber (optional_get msg (utf16 "ts"));
    if is_empty author || is_empty text then Ok None
    else
      let ts := if negb (isFinite ts) || le_zero ts then nowTs else ts in
      Ok (Some {| author := author; text := text; ts := ts |}).

(** ** The typing indicator

    [typingEl], with its text and its [hidden] attribute. *)
Record Indicator : Type := { textContent : jsstring; hidden : bool }.

Definition TEXT_TYPING : jsstring := Eval vm_compute in utf16 " печатает…".

(** [v === s] for a string [s] *)
Definition strict_eq_string (v : JsValue) (s : jsstring) : bool :=
  match v with
  | JString t => bool_decide (t = s)
  | _ => false
  end.

(** [socket.on('typing', ({ name, isTyping }) => ...)]: the destructuring
    of the parameter throws on [null] and [undefined]. *)
Definition on_typing (userName : jsstring) (payload : JsValue) (el : Indicator)
    : Result Indicator :=
  match payload with
  | JUndefined | JNull => TypeError
  | _ =>
      let name := optional_get payload (utf16 "name") in
      let isTyping := optional_get payload (utf16 "isTyping") in
      if negb (truthy name) || strict_eq_string name userName then Ok el
      else if truthy isTyping
      then
        s ← ToString name;
        Ok {| textContent := s ++ TEXT_TYPING; hidden := false |}
      else Ok {| textContent := textContent el; hidden := true |}
  end.

(** ** Transport *)

Inductive Kind : Type := socketio | ws.

Record Transport : Type := { kind : Kind; ready : bool }.

(** [conn.emit(event, arg)] on a Socket.IO connection, and
    [conn.send(JSON.stringify(frame))] on a WebSocket. *)
Inductive Sent : Type :=
| emit (event : jsstring) (arg : JsValue)
| send (frame : JsValue).

(** [transport?.ready] *)
Definition is_ready (transport : option Transport) : bool :=
  match transport with
  | Some t => ready t
  | None => false
  end.

Definition sendMessage (transport : option Transport) (text : JsValue)
    : Result (list Sent) :=
  safe ← sanitizeText text 1000;
  match transport with
  | Some t =>
      if is_empty safe || negb (ready t) then Ok []
      else
        match kind t with
        | socketio =>
            Ok [emit (utf16 "chat_message") (JObject [(utf16 "text", JString safe)])]
        | ws =>
            Ok [send (JObject [ (utf16 "type", JString (utf16 "chat"));
                                (utf16 "text", JString safe) ])]
        end
  | None => Ok []
  end.

Definition setTyping (transport : option Transport) (state : JsValue) : list Sent :=
  match transport with
  | Some t =>
      if negb (ready t) then []
      else
        match kind t with
        | socketio => [emit (utf16 "typing") (JBool (truthy state))]
        | ws =>
            [send (JObject [ (utf16 "type", JString (utf16 "typing"));
                             (utf16 "isTyping", JBool (truthy state)) ])]
        end
  | None => []
  end.

End Coercions.

(** ** The typing status and its debounce

    [typing] is the flag of the script; [typingTimer] tells whether a
    timeout set by the input handler is still pending. *)
Record Ui : Type := { typing : bool; typingTimer : bool }.

Definition ui_initial : Ui := {| typing := false; typingTimer := false |}.

(** The calls that the handlers make to [Transport]. *)
Inductive Call : Type :=
| Call_sendMessage (text : jsstring)
| Call_setTyping (state : bool).

(** [messageInput.addEventListener('input', ...)] *)
Definition on_input (ui : Ui) : Ui * list Call :=
  ({| typing := true; typingTimer := true |},
   if typing ui then [] else [Call_setTyping true]).

(** The callback given to [setTimeout]. *)
Definition on_timeout (ui : Ui) : Ui * list Call :=
  ({| typing := false; typingTimer := false |}, [Call_setTyping false]).

(** [messageForm.addEventListener('submit', ...)], [value] being the
    content of the message field. *)
Definition on_submit (value : jsstring) (ui : Ui) : Ui * list Call :=
  if typing ui
  then ({| typing := false; typingTimer := false |},
        [Call_sendMessage value; Call_setTyping false])
  else (ui, [Call_sendMessage value]).

Inductive UiEvent : Type :=
| Input
| Timeout
| Submit (value : jsstring).

(** One event of the page; a timeout fires only while it is pending. *)
Definition ui_step (ui : Ui) (e : UiEvent) : Ui * list Call :=
  match e with
  | Input => on_input ui
  | Timeout => if typingTimer ui then on_timeout ui else (ui, [])
  | Submit value => on_submit value ui
  end.

Fixpoint ui_run (events : list UiEvent) (ui : Ui) : Ui * list Call :=
  match events with
  | [] => (ui, [])
  | e :: rest =>
      let '(ui1, calls1) := ui_step ui e in
      let '(ui2, calls2) := ui_run rest ui1 in
      (ui2, calls1 ++ calls2)
  end.

Definition typing_calls (calls : list Call) : list bool :=
  omap (fun c => match c with Call_setTyping b => Some b | _ => None end) calls.

(** The states alternate, the first one being [expect]. *)
Fixpoint alternates (expect : bool) (states : list bool) : bool :=
  match states with
  | [] => true
  | b :: rest => eqb b expect && alternates (negb expect) rest
  end.

End Client.

(** More of the sample session: the message of Ann as the server
    broadcasts it, and stand-ins for the two conversions of the language. *)
Definition sample_chat : Inbound :=
  EvChatMessage (JObject [(utf16 "text", JString (utf16 " hi  there "))]).

Definition sample_message : Message :=
  {| id := utf16 "1700000000000-4fzyo8";
     author := utf16 "Ann";
     text := utf16 "hi there";
     ts := 1700000000002 |}.

Definition sample_Number_toString : JsNum -> jsstring := fun _ => utf16 "0".
Definition sample_StringToNumber : jsstring -> JsNum := fun _ => NumNaN.

(** * Properties *)

(** ** Validation *)

Lemma replace_ws_runs_length b s :
  (length (replace_ws_runs b s) ≤ length s)%nat.
Proof.
  revert b; induction s as [|c s IH]; intros b; simpl; [lia|].
  destruct (is_ws c); [destruct b|]; simpl;
    [specialize (IH true)|specialize (IH true)|specialize (IH false)]; lia.
Qed.

Lemma trimStart_length s : (length (trimStart s) ≤ length s)%nat.
Proof.
  induction s as [|c s IH]; simpl; [lia|].
  destruct (is_ws c); simpl; lia.
Qed.

Lemma trimEnd_length s : (length (trimEnd s) ≤ length s)%nat.
Proof.
  unfold trimEnd. rewrite length_reverse.
  etransitivity; [apply trimStart_length|]. by rewrite length_reverse.
Qed.

Lemma trim_length s : (length (trim s) ≤ length s)%nat.
Proof.
  unfold trim. etransitivity; [apply trimEnd_length|apply trimStart_length].
Qed.

Lemma substring0_length s maxLen :
  (length (substring0 s maxLen) ≤ Z.to_nat maxLen)%nat.
Proof. unfold substring0. rewrite length_take. lia. Qed.

Lemma substring0_id s maxLen :
  (length s ≤ Z.to_nat maxLen)%nat → substring0 s maxLen = s.
Proof. intros H. unfold substring0. by apply take_ge. Qed.

Lemma sanitize_length raw maxLen :
  (length (sanitize raw maxLen) ≤ Z.to_nat maxLen)%nat.
Proof.
  destruct raw; simpl; try lia.
  etransitivity; [apply trim_length|].
  etransitivity; [apply replace_ws_runs_length|apply substring0_length].
Qed.

(** Stripping the front leaves a string that does not start with
    whitespace. *)
Lemma trimStart_head s c : head (trimStart s) = Some c → is_ws c = false.
Proof.
  induction s as [|d s IH]; simpl; [done|].
  destruct (is_ws d) eqn:E; [done|]. simpl. congruence.
Qed.

Lemma trimStart_app_keep l c m :
  is_ws c = false → trimStart (l ++ c :: m) = trimStart l ++ c :: m.
Proof.
  intros Hc. induction l as [|d l IH]; simpl.
  - by rewrite Hc.
  - destruct (is_ws d); [done|reflexivity].
Qed.

Lemma trimEnd_cons_keep c s :
  is_ws c = false → trimEnd (c :: s) = c :: trimEnd s.
Proof.
  intros Hc. unfold trimEnd. rewrite reverse_cons.
  rewrite (trimStart_app_keep (reverse s) c [] Hc).
  by rewrite reverse_app.
Qed.

Lemma trim_head s c : head (trim s) = Some c → is_ws c = false.
Proof.
  unfold trim. intros H.
  destruct (trimStart s) as [|d t] eqn:E; [done|].
  assert (Hd : is_ws d = false) by (apply (trimStart_head s); by rewrite E).
  rewrite (trimEnd_cons_keep d t Hd) in H. simpl in H. congruence.
Qed.

Lemma trimEnd_last s c : last (trimEnd s) = Some c → is_ws c = false.
Proof.
  unfold trimEnd. rewrite last_reverse. apply trimStart_head.
Qed.

Lemma trim_last s c : last (trim s) = Some c → is_ws c = false.
Proof. apply trimEnd_last. Qed.

Lemma or_null_None s : or_null s = None ↔ s = [].
Proof. destruct s; simpl; split; congruence. Qed.

Lemma or_null_Some s t : or_null s = Some t → t = s ∧ s ≠ [].
Proof. destruct s; simpl; [done|]. intros [= <-]. done. Qed.

Lemma is_ws_SPACE : is_ws SPACE = true.
Proof. reflexivity. Qed.

Lemma replace_ws_runs_single_spaced b s :
  single_spaced (replace_ws_runs b s) = true
  ∧ (b = true → ∀ c, head (replace_ws_runs b s) = Some c → is_ws c = false).
Proof.
  revert b; induction s as [|c s IH]; intros b; simpl; [done|].
  destruct (is_ws c) eqn:Ec.
  - destruct (IH true) as [IH1 IH2]. destruct b.
    + split; [done|]. intros _. by apply IH2.
    + split; [|done]. simpl. rewrite IH1.
      destruct (replace_ws_runs true s) as [|d t] eqn:Et; [done|].
      by rewrite (IH2 eq_refl d eq_refl).
  - destruct (IH false) as [IH1 _]. split.
    + simpl. by rewrite Ec, IH1.
    + intros _ d [= <-]. done.
Qed.

Lemma single_spaced_tail c s : single_spaced (c :: s) = true → single_spaced s = true.
Proof. simpl. intros H. by apply andb_prop in H as [_ H]. Qed.

Lemma single_spaced_app_l l m : single_spaced (l ++ m) = true → single_spaced l = true.
Proof.
  induction l as [|c l IH]; [done|].
  change ((c :: l) ++ m) with (c :: (l ++ m)). simpl.
  intros H. apply andb_prop in H as [H1 H2]. rewrite (IH H2), andb_true_r.
  destruct (is_ws c); [|done]. destruct l as [|d l]; [|exact H1].
  apply andb_prop in H1 as [-> _]. done.
Qed.

Lemma trimStart_suffix s : ∃ l, s = l ++ trimStart s.
Proof.
  induction s as [|c s [l IH]]; [by exists []|]. simpl.
  destruct (is_ws c); [|by exists []].
  exists (c :: l). simpl. by rewrite <- IH.
Qed.

Lemma trimEnd_prefix s : ∃ m, s = trimEnd s ++ m.
Proof.
  destruct (trimStart_suffix (reverse s)) as [l Hl].
  exists (reverse l). unfold trimEnd.
  rewrite <- reverse_app, <- Hl. by rewrite reverse_involutive.
Qed.

Lemma trimStart_single_spaced s :
  single_spaced s = true → single_spaced (trimStart s) = true.
Proof.
  induction s as [|c s IH]; [done|]. intros H. simpl.
  destruct (is_ws c); [|exact H]. apply IH. by apply single_spaced_tail in H.
Qed.

Lemma trim_single_spaced s :
  single_spaced s = true → single_spaced (trim s) = true.
Proof.
  intros H. unfold trim.
  destruct (trimEnd_prefix (trimStart s)) as [m Hm].
  apply (single_spaced_app_l _ m). rewrite <- Hm.
  by apply trimStart_single_spaced.
Qed.

Lemma sanitize_single_spaced raw maxLen :
  single_spaced (sanitize raw maxLen) = true.
Proof.
  destruct raw; try reflexivity. simpl.
  apply trim_single_spaced, replace_ws_runs_single_spaced.
Qed.

(** A string is cleared by [trim] exactly when it is whitespace only. *)
Lemma trimStart_nil s : trimStart s = [] ↔ forallb is_ws s = true.
Proof.
  induction s as [|c s IH]; simpl; [done|].
  destruct (is_ws c); simpl; [exact IH|]. split; discriminate.
Qed.

Lemma trim_nil s : trim s = [] ↔ forallb is_ws s = true.
Proof.
  rewrite <- trimStart_nil. unfold trim. split.
  - intros H. destruct (trimStart s) as [|d t] eqn:E; [done|].
    assert (Hd : is_ws d = false) by (apply (trimStart_head s); by rewrite E).
    by rewrite (trimEnd_cons_keep d t Hd) in H.
  - by intros ->.
Qed.

Lemma replace_ws_runs_all_ws b s :
  forallb is_ws (replace_ws_runs b s) = forallb is_ws s.
Proof.
  revert b; induction s as [|c s IH]; intros b; simpl; [done|].
  destruct (is_ws c) eqn:Ec; [destruct b|]; simpl; rewrite ?Ec, ?IH; done.
Qed.

Lemma sanitize_nil s maxLen :
  sanitize (JString s) maxLen = [] ↔ forallb is_ws (substring0 s maxLen) = true.
Proof. simpl. by rewrite trim_nil, replace_ws_runs_all_ws. Qed.

(** On an input no longer than [maxLen] the two orders of truncation
    agree. *)
Lemma sanitize_short raw maxLen :
  (length (coerce_text raw) ≤ Z.to_nat maxLen)%nat →
  sanitize raw maxLen = normalizeText_spec raw maxLen.
Proof.
  intros H. unfold normalizeText_spec.
  assert (Hs : sanitize raw maxLen = trim (replace_ws_runs false (coerce_text raw))).
  { destruct raw; try reflexivity. simpl in *. by rewrite substring0_id. }
  rewrite Hs. symmetry. apply substring0_id.
  etransitivity; [apply trim_length|].
  etransitivity; [apply replace_ws_runs_length|done].
Qed.

Example validateName_Ann :
  validateName (JString (utf16 "  Ann   ")) = Some (utf16 "Ann").
Proof. reflexivity. Qed.

Example validateName_not_a_string :
  validateName JNull = None ∧ validateName (JNumber (NumFinite false 7 0)) = None.
Proof. split; reflexivity. Qed.

Example utf16_literals :
  utf16 "я ж" = [1103; 32; 1078] ∧ utf16 "✉️" = [9993; 65039]
  ∧ utf16 "🔌" = [55357; 56588].
Proof. repeat split; reflexivity. Qed.

(** C6 (counterexample): forty spaces followed by a name.  The code cuts
    the input to its first forty code units, all of them blank, and rejects
    the name; normalizing first and truncating the result accepts it. *)
Lemma C6_truncation_order_counterexample :
  let raw := JString (replicate 40 SPACE ++ utf16 "Ann") in
  sanitize raw 40 = []
  ∧ normalizeText_spec raw 40 = utf16 "Ann"
  ∧ validateName raw = None
  ∧ validateName raw ≠ validateName_spec raw.
Proof. vm_compute. repeat split; discriminate. Qed.

(** C6 (amended): [sanitize] yields the empty string on anything that is
    not a string; on a string it first keeps the first [maxLen] code units
    and then collapses whitespace runs and trims, so that its result is the
    specified normalization of the truncated input.  The result has at most
    [maxLen] code units, neither starts nor ends with whitespace, and holds
    no whitespace but single spaces.  [validateName raw] is that result for
    [maxLen = 40], and [null] exactly when it is empty. *)
Theorem C6_sanitize_truncates_first (raw : JsValue) (maxLen : Z) :
  sanitize raw maxLen
    = normalizeText_spec (JString (substring0 (coerce_text raw) maxLen)) maxLen
  ∧ sanitize raw maxLen
    = trim (replace_ws_runs false (substring0 (coerce_text raw) maxLen))
  ∧ match raw with
    | JString _ => True
    | _ => sanitize raw maxLen = []
    end
  ∧ (length (sanitize raw maxLen) ≤ Z.to_nat maxLen)%nat
  ∧ is_ws (default 0 (head (sanitize raw maxLen))) = false
  ∧ is_ws (default 0 (last (sanitize raw maxLen))) = false
  ∧ single_spaced (sanitize raw maxLen) = true
  ∧ validateName raw = or_null (sanitize raw 40)
  ∧ match validateName raw with
    | None => sanitize raw 40 = []
    | Some name => name = sanitize raw 40 ∧ name ≠ []
    end.
Proof.
  assert (E : sanitize raw maxLen
              = trim (replace_ws_runs false (substring0 (coerce_text raw) maxLen))).
  { destruct raw; try reflexivity.
    all: simpl; unfold substring0; by rewrite take_nil. }
  split; [|split; [exact E|]].
  { rewrite E. unfold normalizeText_spec. simpl. symmetry. apply substring0_id.
    rewrite <- E. apply sanitize_length. }
  split; [by destruct raw|].
  split; [apply sanitize_length|].
  split.
  { destruct (head (sanitize raw maxLen)) as [c|] eqn:Hh; [|reflexivity].
    simpl. rewrite E in Hh. by apply trim_head in Hh. }
  split.
  { destruct (last (sanitize raw maxLen)) as [c|] eqn:Hl; [|reflexivity].
    simpl. rewrite E in Hl. by apply trim_last in Hl. }
  split; [apply sanitize_single_spaced|].
  split; [reflexivity|].
  unfold validateName. destruct (sanitize raw 40); simpl; done.
Qed.

(** ** The handlers, step by step *)

Ltac hub_unfold :=
  cbv [handle on_join on_chat_message on_typing on_disconnect broadcastOnline
       try_catch bind mbind mret Hub_bind Hub_ret ret external log io_emit
       socket_broadcast_emit socket_emit users_get users_set users_delete
       users_size Date_now Math_random_toString36 advance advance_reads
       users tick reads
       completion_of state_of trace_of fst snd].

Ltac hub_cases :=
  repeat match goal with
    | |- context [match fault ?e ?n with _ => _ end] =>
        let E := fresh "Hfault" in destruct (fault e n) eqn:E
    | |- context [match validateName ?r with _ => _ end] =>
        let E := fresh "Hname" in destruct (validateName r) eqn:E
    | |- context [match validateText ?r with _ => _ end] =>
        let E := fresh "Htext" in destruct (validateText r) eqn:E
    | |- context [match ?m !! ?k with _ => _ end] =>
        let E := fresh "Huser" in destruct (m !! k) eqn:E
    | |- context [if truthy ?v then _ else _] =>
        let E := fresh "Htruthy" in destruct (truthy v) eqn:E
    end.

Lemma handle_users env (socket : SocketId) ev st :
  users (state_of (handle env socket ev st)) = registry_after socket ev (users st).
Proof.
  destruct st as [registry t k], ev; unfold registry_after; hub_unfold;
    hub_cases; reflexivity.
Qed.

Lemma names_valid_after (socket : SocketId) ev registry :
  names_valid registry → names_valid (registry_after socket ev registry).
Proof.
  intros Hv. destruct ev as [rawName| | |reason]; simpl; try done.
  - destruct (validateName rawName) as [n|] eqn:E; [|done].
    intros s u Hs. destruct (decide (socket = s)) as [->|Hne].
    + rewrite lookup_insert_eq in Hs. injection Hs as <-. simpl.
      unfold validateName in E. by apply or_null_Some in E as [-> E].
    + rewrite lookup_insert_ne in Hs by done. by apply (Hv s).
  - intros s u Hs. apply lookup_delete_Some in Hs as [_ Hs]. by apply (Hv s).
Qed.

Lemma Reachable_names_valid st : Reachable st → names_valid (users st).
Proof.
  induction 1 as [|env socket ev st _ IH].
  - intros s u Hs. cbv [initial users] in Hs. by rewrite lookup_empty in Hs.
  - rewrite handle_users. by apply names_valid_after.
Qed.

Lemma recipients_others_not_sender (connected : gset SocketId) (socket : SocketId) :
  socket ∉ recipients connected (ToOthers socket).
Proof.
  simpl. rewrite elem_of_difference, elem_of_singleton. by intros [_ H].
Qed.

Lemma recipients_others_rest (connected : gset SocketId) (socket other : SocketId) :
  other ∈ connected → other ≠ socket → other ∈ recipients connected (ToOthers socket).
Proof.
  intros Hin Hne. simpl. rewrite elem_of_difference, elem_of_singleton. done.
Qed.

(** C2: a join with a valid name, handled without a failure, registers the
    participant under the connection's id, sends the join notice to every
    other connection, the [joined] acknowledgment with the normalized name
    to the sender alone and then the refreshed count to everyone, in this
    order and nothing else. *)
Theorem C2_join_sequence (env : Env) (socket : SocketId) (rawName : JsValue)
    (name : jsstring) (st : State) (connected : gset SocketId) :
  no_fault env →
  validateName rawName = Some name →
  let registry' := <[socket := {| name := name |}]> (users st) in
  handle env socket (EvJoin rawName) st
  = (Normal tt,
     {| users := registry'; tick := 4 + tick st; reads := reads st |},
     [ Log (LogJoined name socket);
       Emit (ToOthers socket) (system_message NoticeJoin (name ++ TEXT_JOINED));
       Emit (ToOne socket) (joined name);
       Emit ToAll (online_count (size registry')) ])
  ∧ name = sanitize rawName 40
  ∧ registry' !! socket = Some {| name := name |}
  ∧ (socket ∉ recipients connected (ToOthers socket))
  ∧ (∀ other, other ∈ connected → other ≠ socket →
       other ∈ recipients connected (ToOthers socket))
  ∧ recipients connected (ToOne socket) = {[socket]}
  ∧ recipients connected ToAll = connected.
Proof.
  intros Hq Hname registry'. split; [|split; [|split; [|split; [|split]]]].
  - destruct st as [registry t k]. subst registry'. hub_unfold.
    rewrite Hname, !Hq. reflexivity.
  - unfold validateName in Hname. by apply or_null_Some in Hname as [-> _].
  - apply lookup_insert_eq.
  - apply recipients_others_not_sender.
  - apply recipients_others_rest.
  - done.
Qed.

(** C4: a chat message from a connection that has no registry entry is
    answered by one error notice to that connection alone; nothing is
    broadcast and the registry stays as it is. *)
Theorem C4_chat_before_join (env : Env) (socket : SocketId) (payload : JsValue)
    (st : State) (connected : gset SocketId) :
  no_fault env →
  users st !! socket = None →
  handle env socket (EvChatMessage payload) st
  = (Normal tt, advance st, [Emit (ToOne socket) (error_message MSG_NAME_FIRST)])
  ∧ users (advance st) = users st
  ∧ recipients connected (ToOne socket) = {[socket]}.
Proof.
  intros Hq Hnone. split; [|done].
  destruct st as [registry t k]. simpl in Hnone. hub_unfold.
  rewrite Hnone, Hq. reflexivity.
Qed.

(** The text is cut to 1000 code units before it is normalized: a text
    that starts with 1000 blanks is dropped whatever follows. *)
Example validateText_blank_prefix :
  validateText (JString (replicate 1000 SPACE ++ utf16 "hi")) = None.
Proof. vm_compute. reflexivity. Qed.

(** C5: from a joined connection, a chat message whose text normalizes to
    the empty string (a whitespace-only text among them) is dropped: no
    broadcast, no error notice, no log line, whatever the environment; a
    text that does not is broadcast to all connections, the sender
    included, as a message whose author is the registered name. *)
Theorem C5_chat_from_joined (env : Env) (socket : SocketId) (payload : JsValue)
    (u : User) (st : State) (connected : gset SocketId) :
  users st !! socket = Some u →
  (sanitize (optional_get payload (utf16 "text")) 1000 = [] →
     handle env socket (EvChatMessage payload) st = (Normal tt, st, []))
  ∧ (∀ s, optional_get payload (utf16 "text") = JString s →
       forallb is_ws s = true →
       handle env socket (EvChatMessage payload) st = (Normal tt, st, []))
  ∧ (no_fault env →
     sanitize (optional_get payload (utf16 "text")) 1000 ≠ [] →
     handle env socket (EvChatMessage payload) st
     = (Normal tt,
        {| users := users st; tick := 2 + tick st; reads := 3 + reads st |},
        [ Log (LogChat (name u) (sanitize (optional_get payload (utf16 "text")) 1000));
          Emit ToAll
            (chat_message
               {| id := utf16 (pretty (clock env (reads st))) ++ utf16 "-"
                        ++ slice_2_8 (random36 env (S (reads st)));
                  author := name u;
                  text := sanitize (optional_get payload (utf16 "text")) 1000;
                  ts := clock env (S (S (reads st))) |}) ])
     ∧ (socket ∈ connected → socket ∈ recipients connected ToAll)).
Proof.
  intros Hu.
  assert (Hdrop : sanitize (optional_get payload (utf16 "text")) 1000 = [] →
                  handle env socket (EvChatMessage payload) st = (Normal tt, st, [])).
  { intros Hempty. destruct st as [registry t k]. simpl in Hu. hub_unfold.
    rewrite Hu. unfold validateText. rewrite Hempty. reflexivity. }
  split; [exact Hdrop|]. split.
  - intros s Hs Hws. apply Hdrop. rewrite Hs. apply sanitize_nil.
    unfold substring0. rewrite forallb_forall in Hws. apply forallb_forall.
    intros c Hc. apply Hws. apply list_elem_of_In. apply list_elem_of_In in Hc.
    by apply (subseteq_take (Z.to_nat 1000) s).
  - intros Hq Hne. split; [|done].
    destruct st as [registry t k]. simpl in Hu. hub_unfold.
    rewrite Hu. unfold validateText.
    destruct (sanitize (optional_get payload (utf16 "text")) 1000) as [|c txt] eqn:E;
      [done|].
    change (or_null (c :: txt)) with (Some (c :: txt)). hub_unfold.
    rewrite !Hq. reflexivity.
Qed.

Lemma run_cons env (socket : SocketId) ev rest st :
  run env ((socket, ev) :: rest) st
  = match handle env socket ev st with
    | (Normal _, st1, t1) =>
        let '(c, st2, t2) := run env rest st1 in (c, st2, t1 ++ t2)
    | (Throw err, st1, t1) => (Throw err, st1, t1)
    end.
Proof. reflexivity. Qed.

Lemma emits_app t1 t2 : emits (t1 ++ t2) = emits t1 ++ emits t2.
Proof. apply omap_app. Qed.

(** C7: a typing event from a connection that is not joined is ignored,
    whatever the environment; from a joined connection it is relayed to all
    connections, the sender included, with the registered name and the
    typing state, one broadcast for every event received.  The state
    relayed is the argument as a boolean: [true] for [typing(true)],
    [false] for [typing(false)] and for a missing argument, and
    [typing(true)] followed by [typing(false)] gives the two broadcasts in
    that order. *)
Theorem C7_typing_relay (env : Env) (socket : SocketId) (st : State)
    (connected : gset SocketId) :
  (users st !! socket = None →
     ∀ isTyping, handle env socket (EvTyping isTyping) st = (Normal tt, st, []))
  ∧ (∀ u, users st !! socket = Some u → no_fault env →
       (∀ isTyping,
          handle env socket (EvTyping isTyping) st
          = (Normal tt, advance st,
             [Emit ToAll (typing (name u) (truthy isTyping) socket)]))
       ∧ (∀ states : list JsValue,
            emits (trace_of
                     (run env (map (fun v => (socket, EvTyping v)) states) st))
            = map (fun v => (ToAll, typing (name u) (truthy v) socket)) states)
       ∧ (socket ∈ connected → socket ∈ recipients connected ToAll)
       ∧ (∀ b : bool,
            handle env socket (EvTyping (JBool b)) st
            = (Normal tt, advance st, [Emit ToAll (typing (name u) b socket)]))
       ∧ handle env socket (EvTyping JUndefined) st
         = (Normal tt, advance st, [Emit ToAll (typing (name u) false socket)])
       ∧ handle env socket (EvTyping JNull) st
         = (Normal tt, advance st, [Emit ToAll (typing (name u) false socket)])
       ∧ emits (trace_of
                  (run env [ (socket, EvTyping (JBool true));
                             (socket, EvTyping (JBool false)) ] st))
         = [ (ToAll, typing (name u) true socket);
             (ToAll, typing (name u) false socket) ]).
Proof.
  split.
  - intros Hnone isTyping. destruct st as [registry t k]. simpl in Hnone.
    hub_unfold. by rewrite Hnone.
  - intros u Hu Hq.
    assert (Hone : ∀ st', users st' !! socket = Some u → ∀ isTyping,
              handle env socket (EvTyping isTyping) st'
              = (Normal tt, advance st',
                 [Emit ToAll (typing (name u) (truthy isTyping) socket)])).
    { intros [registry t k] Hu' isTyping. simpl in Hu'. hub_unfold.
      by rewrite Hu', Hq. }
    assert (Hrun : ∀ states : list JsValue,
              emits (trace_of
                       (run env (map (fun v => (socket, EvTyping v)) states) st))
              = map (fun v => (ToAll, typing (name u) (truthy v) socket)) states).
    { intros states. revert st Hu.
      induction states as [|v states IH]; intros st Hu; [reflexivity|].
      simpl map. rewrite run_cons, (Hone st Hu v).
      specialize (IH (advance st) Hu).
      destruct (run env (map (λ v0, (socket, EvTyping v0)) states) (advance st))
        as [[c st2] t2].
      unfold trace_of in *. simpl in *. by rewrite IH. }
    split; [by apply Hone|]. split; [exact Hrun|]. split; [done|].
    split; [intros b; rewrite (Hone st Hu); by destruct b|].
    split; [by rewrite (Hone st Hu)|]. split; [by rewrite (Hone st Hu)|].
    exact (Hrun [JBool true; JBool false]).
Qed.

(** C10: from a joined connection, a chat message whose payload is not an
    object with a string [text] (null, undefined, a boolean, a number, a
    string, an array, an object without [text] or with a [text] of another
    type) makes the handler return normally without any effect, in every
    environment: the same outcome as an empty text. *)
Theorem C10_malformed_payload_dropped (env : Env) (socket : SocketId)
    (payload : JsValue) (u : User) (st : State) :
  users st !! socket = Some u →
  has_string_text payload = false →
  handle env socket (EvChatMessage payload) st = (Normal tt, st, [])
  ∧ handle env socket (EvChatMessage payload) st
    = handle env socket
        (EvChatMessage (JObject [(utf16 "text", JString [])])) st.
Proof.
  intros Hu Hp.
  assert (Hdrop : ∀ p, sanitize (optional_get p (utf16 "text")) 1000 = [] →
            handle env socket (EvChatMessage p) st = (Normal tt, st, [])).
  { intros p Hempty. destruct st as [registry t k]. simpl in Hu. hub_unfold.
    rewrite Hu. unfold validateText. by rewrite Hempty. }
  assert (Hs : sanitize (optional_get payload (utf16 "text")) 1000 = []).
  { unfold has_string_text in Hp.
    by destruct (optional_get payload (utf16 "text")). }
  split; [by apply Hdrop|].
  rewrite (Hdrop payload Hs). symmetry. by apply Hdrop.
Qed.

(** The payloads named by C10 have no string [text]. *)
Lemma has_string_text_primitive (payload : JsValue) :
  match payload with
  | JObject fields =>
      (∀ k v, (k, v) ∈ fields → k ≠ utf16 "text") → has_string_text payload = false
  | _ => has_string_text payload = false
  end.
Proof.
  destruct payload as [| | | | | |fields]; try reflexivity.
  unfold has_string_text, optional_get. generalize (utf16 "text").
  intros key Hno.
  induction fields as [|[k v] fields IH]; [reflexivity|]. cbn [get_field].
  destruct (decide (k = key)) as [->|_].
  - exfalso. by apply (Hno key v); [left|].
  - apply IH. intros k' v' Hin. apply (Hno k' v'). by right.
Qed.

(** C3: in a reachable state with no failing call, the disconnect of a
    joined connection removes its entry and sends one leave notice to every
    other connection followed by one count to everyone; the disconnect of a
    connection without an entry sends nothing and leaves the registry as it
    is. *)
Theorem C3_disconnect (env : Env) (socket : SocketId) (reason : JsValue)
    (st : State) (connected : gset SocketId) :
  Reachable st →
  no_fault env →
  let r := handle env socket (EvDisconnect reason) st in
  match users st !! socket with
  | Some u =>
      r = (Normal tt,
           {| users := delete socket (users st); tick := 3 + tick st;
              reads := reads st |},
           [ Log (LogDisconnected (name u) socket reason);
             Emit (ToOthers socket) (system_message NoticeLeave (name u ++ TEXT_LEFT));
             Emit ToAll (online_count (size (delete socket (users st)))) ])
      ∧ users (state_of r) !! socket = None
      ∧ S (size (users (state_of r))) = size (users st)
      ∧ (socket ∉ recipients connected (ToOthers socket))
      ∧ recipients connected ToAll = connected
  | None =>
      r = (Normal tt,
           {| users := delete socket (users st); tick := 1 + tick st;
              reads := reads st |},
           [ Log (LogDisconnectedUnauth socket reason) ])
      ∧ emits (trace_of r) = []
      ∧ users (state_of r) = users st
  end.
Proof.
  intros Hreach Hq r.
  pose proof (Reachable_names_valid st Hreach) as Hvalid.
  assert (Husers : users (state_of r) = delete socket (users st))
    by (subst r; apply handle_users).
  destruct (users st !! socket) as [u|] eqn:Hu.
  - assert (Hr : r = (Normal tt,
           {| users := delete socket (users st); tick := 3 + tick st;
              reads := reads st |},
           [ Log (LogDisconnected (name u) socket reason);
             Emit (ToOthers socket) (system_message NoticeLeave (name u ++ TEXT_LEFT));
             Emit ToAll (online_count (size (delete socket (users st)))) ])).
    { subst r. specialize (Hvalid socket u Hu). clear Husers Hreach.
      destruct st as [registry t k]. simpl in Hu. hub_unfold. rewrite Hu.
      destruct (name u) as [|c nm] eqn:En; [done|].
      cbv [truthy]. rewrite !Hq. reflexivity. }
    split; [exact Hr|]. rewrite Husers.
    split; [apply lookup_delete_eq|].
    split; [|split; [apply recipients_others_not_sender|done]].
    rewrite (map_size_delete_Some socket (users st)) by eauto.
    assert (size (users st) ≠ 0%nat); [|lia].
    intros H0. apply map_size_empty_inv in H0. rewrite H0 in Hu.
    by rewrite lookup_empty in Hu.
  - assert (Hr : r = (Normal tt,
           {| users := delete socket (users st); tick := 1 + tick st;
              reads := reads st |},
           [ Log (LogDisconnectedUnauth socket reason) ])).
    { subst r. clear Husers Hreach Hvalid.
      destruct st as [registry t k]. simpl in Hu. hub_unfold. rewrite Hu.
      rewrite !Hq. reflexivity. }
    split; [exact Hr|]. split; [by rewrite Hr|].
    rewrite Husers. by apply delete_id.
Qed.

(** ** Invariants of the event loop *)

Lemma run_app env (l1 l2 : list (SocketId * Inbound)) st :
  run env (l1 ++ l2) st
  = match run env l1 st with
    | (Normal _, st1, t1) =>
        let '(c, st2, t2) := run env l2 st1 in (c, st2, t1 ++ t2)
    | (Throw err, st1, t1) => (Throw err, st1, t1)
    end.
Proof.
  revert st. induction l1 as [|[socket ev] l1 IH]; intros st.
  - change (run env [] st) with (@Normal unit tt, st, @nil Effect). simpl.
    by destruct (run env l2 st) as [[c st2] t2].
  - change (((socket, ev) :: l1) ++ l2) with ((socket, ev) :: (l1 ++ l2)).
    rewrite !run_cons.
    destruct (handle env socket ev st) as [[[u|err] st1] t1]; [|done].
    rewrite IH. destruct (run env l1 st1) as [[[u1|err1] st2] t2]; [|done].
    destruct (run env l2 st2) as [[c st3] t3]. by rewrite app_assoc.
Qed.

Lemma run_single env (socket : SocketId) ev st :
  run env [(socket, ev)] st = handle env socket ev st.
Proof.
  rewrite run_cons.
  destruct (handle env socket ev st) as [[[u|err] st1] t1]; [|done].
  simpl. destruct u. by rewrite app_nil_r.
Qed.

Lemma handle_emissions env (socket : SocketId) ev st :
  Forall (emission_ok socket (users (state_of (handle env socket ev st))))
         (emits (trace_of (handle env socket ev st))).
Proof.
  destruct st as [registry t k], ev; hub_unfold; hub_cases;
    cbv [emits omap list_omap app]; repeat constructor.
Qed.

Lemma joined_connections_snoc events e :
  joined_connections (events ++ [e]) = session_step (joined_connections events) e.
Proof. unfold joined_connections. by rewrite fold_left_app. Qed.

Lemma registry_history_step events (socket : SocketId) ev registry :
  registry_history_ok events registry →
  registry_history_ok (events ++ [(socket, ev)]) (registry_after socket ev registry).
Proof.
  intros [Hdom Hnames]. split.
  - rewrite joined_connections_snoc. simpl.
    destruct ev as [rawName| | |reason]; simpl; try done.
    + destruct (validateName rawName); [|done]. by rewrite dom_insert_L, Hdom.
    + by rewrite dom_delete_L, Hdom.
  - assert (Hold : ∀ s u, registry !! s = Some u →
              name u ≠ []
              ∧ ∃ rawName, (s, EvJoin rawName) ∈ events ++ [(socket, ev)]
                           ∧ validateName rawName = Some (name u)).
    { intros s u Hs. destruct (Hnames s u Hs) as [Hne (raw & Hin & Hraw)].
      split; [done|]. exists raw. split; [|done].
      apply elem_of_app. by left. }
    destruct ev as [rawName| | |reason]; simpl; try done.
    + destruct (validateName rawName) as [n|] eqn:E; [|done].
      intros s u Hs. destruct (decide (socket = s)) as [->|Hne].
      * rewrite lookup_insert_eq in Hs. injection Hs as <-. simpl. split.
        -- unfold validateName in E. by apply or_null_Some in E as [-> E].
        -- exists rawName. split; [|done]. apply elem_of_app. right. by left.
      * rewrite lookup_insert_ne in Hs by done. by apply Hold.
    + intros s u Hs. apply lookup_delete_Some in Hs as [_ Hs]. by apply Hold.
Qed.

Lemma run_registry env events c st tr :
  run env events initial = (Normal c, st, tr) →
  registry_history_ok events (users st).
Proof.
  revert c st tr. induction events as [|[socket ev] events IH] using rev_ind;
    intros c st tr Hrun.
  - injection Hrun as _ <- _. split; [done|].
    intros s u Hs. cbv [initial users] in Hs. by rewrite lookup_empty in Hs.
  - rewrite run_app in Hrun.
    destruct (run env events initial) as [[[u1|err1] st1] t1]; [|done].
    rewrite run_single in Hrun.
    pose proof (handle_users env socket ev st1) as Hu.
    destruct (handle env socket ev st1) as [[c2 st2] t2].
    injection Hrun as _ <- _. unfold state_of in Hu. simpl in Hu. rewrite Hu.
    apply registry_history_step. by apply (IH u1 st1 t1).
Qed.

(** When no call fails no handler throws, and the process stays alive. *)
Lemma handle_no_fault env (socket : SocketId) ev st :
  no_fault env → completion_of (handle env socket ev st) = Normal tt.
Proof.
  intros Hq. destruct st as [registry t k], ev; hub_unfold; hub_cases;
    try reflexivity.
  all: match goal with
       | H : fault _ _ = Some _ |- _ => rewrite Hq in H; discriminate H
       end.
Qed.

Lemma run_no_fault env (events : list (SocketId * Inbound)) st :
  no_fault env → completion_of (run env events st) = Normal tt.
Proof.
  intros Hq. revert st. induction events as [|[socket ev] events IH]; intros st;
    [reflexivity|].
  rewrite run_cons. pose proof (handle_no_fault env socket ev st Hq) as Hh.
  destruct (handle env socket ev st) as [[c st1] t1].
  cbv [completion_of fst] in Hh. subst c.
  specialize (IH st1). by destruct (run env events st1) as [[c st2] t2].
Qed.

(** C1: in every environment, as long as no exception has ended the
    process (which never happens when no call fails, [run_no_fault]), after
    every event the keys of the registry are exactly the connections in the
    Joined state, every count published while the event was handled went to
    all connections and is the size of the registry, that is the number of
    Joined connections, and every registered connection has sent a join
    whose validated, non-empty name is the registered one. *)
Theorem C1_online_count_is_registry_size (env : Env)
    (events : list (SocketId * Inbound)) (socket : SocketId) (ev : Inbound) :
  let before := run env events initial in
  let after := handle env socket ev (state_of before) in
  completion_of before = Normal tt →
  dom (users (state_of after)) = joined_connections (events ++ [(socket, ev)])
  ∧ (∀ to n, (to, online_count n) ∈ emits (trace_of after) →
       to = ToAll
       ∧ n = size (users (state_of after))
       ∧ n = size (joined_connections (events ++ [(socket, ev)])))
  ∧ (∀ s u, users (state_of after) !! s = Some u →
       name u ≠ []
       ∧ ∃ rawName, (s, EvJoin rawName) ∈ events ++ [(socket, ev)]
                    ∧ validateName rawName = Some (name u)).
Proof.
  intros before after Halive.
  assert (Hbefore : registry_history_ok events (users (state_of before))).
  { clear after. subst before.
    destruct (run env events initial) as [[c st] tr] eqn:E.
    cbv [completion_of fst] in Halive. subst c.
    by apply (run_registry env events tt st tr). }
  assert (Hafter : registry_history_ok (events ++ [(socket, ev)])
                     (users (state_of after))).
  { subst after. rewrite handle_users. by apply registry_history_step. }
  destruct Hafter as [Hdom Hnames]. split; [exact Hdom|]. split; [|exact Hnames].
  intros to n Hin.
  pose proof (handle_emissions env socket ev (state_of before)) as Hok.
  rewrite Forall_forall in Hok. specialize (Hok _ Hin). simpl in Hok.
  destruct Hok as [-> ->]. split; [done|]. split; [done|].
  fold after. by rewrite <- Hdom, size_dom.
Qed.

Lemma run_errors_to_one env (events : list (SocketId * Inbound)) st to text :
  (to, error_message text) ∈ emits (trace_of (run env events st)) →
  ∃ socket ev, (socket, ev) ∈ events ∧ to = ToOne socket.
Proof.
  revert st. induction events as [|[socket ev] events IH]; intros st Hin.
  - by apply elem_of_nil in Hin.
  - rewrite run_cons in Hin.
    pose proof (handle_emissions env socket ev st) as Hok.
    destruct (handle env socket ev st) as [[[u|err] st1] t1].
    + specialize (IH st1).
      destruct (run env events st1) as [[c st2] t2].
      unfold trace_of in *. simpl in *. rewrite emits_app in Hin.
      apply elem_of_app in Hin as [Hin|Hin].
      * rewrite Forall_forall in Hok. specialize (Hok _ Hin). simpl in Hok.
        exists socket, ev. split; [by left|done].
      * destruct (IH Hin) as (s & e & Hse & ->).
        exists s, e. split; [by right|done].
    + unfold trace_of in *. simpl in *.
      rewrite Forall_forall in Hok. specialize (Hok _ Hin). simpl in Hok.
      exists socket, ev. split; [by left|done].
Qed.

(** C9: in every environment, an error notice emitted while an event is
    handled is addressed to the connection that sent the event and reaches
    no other; over a whole run every error notice is addressed to one
    connection, the sender of one of the events. *)
Theorem C9_errors_are_to_one (env : Env) (st : State) (to : Target)
    (text : jsstring) (connected : gset SocketId) :
  (∀ socket ev,
     (to, error_message text) ∈ emits (trace_of (handle env socket ev st)) →
     to = ToOne socket ∧ recipients connected to = {[socket]})
  ∧ (∀ events,
       (to, error_message text) ∈ emits (trace_of (run env events st)) →
       ∃ socket ev, (socket, ev) ∈ events ∧ to = ToOne socket
                    ∧ recipients connected to = {[socket]}).
Proof.
  split.
  - intros socket ev Hin.
    pose proof (handle_emissions env socket ev st) as Hok.
    rewrite Forall_forall in Hok. specialize (Hok _ Hin). simpl in Hok.
    by subst to.
  - intros events Hin.
    destruct (run_errors_to_one env events st to text Hin) as (s & e & Hse & ->).
    by exists s, e.
Qed.

(** ** Failures while an event is handled *)

Ltac fault_clash Hsf :=
  match goal with
  | H1 : fault ?e ?n = Some _, H2 : fault ?e ?m = Some _ |- _ =>
      exfalso;
      assert (n = m) by (apply Hsf; [rewrite H1|rewrite H2]; eauto);
      lia
  end.

Ltac fault_elsewhere n :=
  repeat match goal with
    | H : fault _ ?m = None |- _ =>
        destruct (decide (n = m)) as [->|?]; [congruence|]; clear H
    end;
  lia.

Ltac split_trace :=
  first [ by exists [] | by eexists [_] | by eexists [_; _]
        | by eexists [_; _; _] | by eexists [_; _; _; _] ].

(** C8 (counterexample): the typing handler has no catch block.  With Ann
    joined and the emission failing, the exception leaves the handler;
    nothing is logged and no error notice is sent. *)
Lemma C8_typing_fault_escapes_counterexample :
  let env := failing_at 0 boom in
  let st := {| users := {[ socket_a := {| name := utf16 "Ann" |} ]};
               tick := 0; reads := 0 |} in
  handle env socket_a (EvTyping (JBool true)) st = (Throw boom, advance st, [])
  ∧ ¬ fault_contained env socket_a (EvTyping (JBool true)) st.
Proof.
  intros env st.
  assert (H : handle env socket_a (EvTyping (JBool true)) st
              = (Throw boom, advance st, [])) by (vm_compute; reflexivity).
  split; [exact H|]. unfold fault_contained. rewrite H.
  intros [Hc _]. discriminate Hc.
Qed.

(** A join whose notice to the others fails is reported as failed to the
    sender, who stays registered all the same. *)
Example join_fault_keeps_entry :
  handle (failing_at 1 boom) socket_a (EvJoin (JString (utf16 "Ann"))) initial
  = (Normal tt,
     {| users := {[ socket_a := {| name := utf16 "Ann" |} ]};
        tick := 4; reads := 0 |},
     [ Log (LogJoined (utf16 "Ann") socket_a);
       Log (LogJoinError (JString (utf16 "boom")));
       Emit (ToOne socket_a) (error_message MSG_JOIN_FAILED) ]).
Proof. vm_compute. reflexivity. Qed.

(** C8 (amended): when at most one call fails, the join and chat_message
    handlers always return normally; a failure of one of their calls is
    caught, logged and reported to the connection by the generic error
    notice of the handler, as the last two effects of the event.  The
    registry is then as after a complete handling: a chat message never
    changes it, and a join keeps the entry it had already set. *)
Theorem C8_try_catch_contains_fault (env : Env) (socket : SocketId)
    (ev : Inbound) (st : State) :
  single_fault env →
  has_try_catch ev = true →
  let r := handle env socket ev st in
  completion_of r = Normal tt
  ∧ users (state_of r) = registry_after socket ev (users st)
  ∧ (∀ n err, (tick st ≤ n < tick (state_of r))%nat → fault env n = Some err →
       ∃ before, trace_of r = before ++ catch_effects socket ev err).
Proof.
  intros Hsf Hcatch r. subst r.
  split; [|split; [apply handle_users|]].
  - destruct st as [registry t k], ev; try discriminate Hcatch;
      hub_unfold; hub_cases; try reflexivity; fault_clash Hsf.
  - destruct st as [registry t k], ev; try discriminate Hcatch;
      hub_unfold; hub_cases; try fault_clash Hsf;
      intros n err Hwin Hn; cbv [catch_effects].
    all: try match goal with
           | H : fault _ ?m = Some _ |- _ =>
               assert (n = m) by (apply Hsf; [rewrite Hn|rewrite H]; eauto);
               subst n; rewrite H in Hn; injection Hn as ->; split_trace
           end.
    all: fault_elsewhere n.
Qed.

(** ** The statements at work on the sample session *)

(** Nothing fails in the sample environment. *)
Lemma no_fault_sample : no_fault sample_env.
Proof. intros n. reflexivity. Defined.

(** [failing_at] has one failing call. *)
Lemma single_fault_failing_at k err : single_fault (failing_at k err).
Proof.
  intros n m [x Hn] [y Hm]. simpl in *.
  destruct (decide (n = k)), (decide (m = k)); congruence.
Defined.

(** C1 at work: Ann and Bob join, then Ann disconnects. *)
Lemma C1_online_count_is_registry_size_witness :
  completion_of (run sample_env two_joins initial) = Normal tt
  ∧ dom (users (state_of
           (handle sample_env socket_a (EvDisconnect (JString (utf16 "transport close")))
              (state_of (run sample_env two_joins initial)))))
    = joined_connections
        (two_joins ++ [(socket_a, EvDisconnect (JString (utf16 "transport close")))]).
Proof.
  assert (H : completion_of (run sample_env two_joins initial) = Normal tt)
    by reflexivity.
  split; [exact H|].
  exact (proj1 (C1_online_count_is_registry_size sample_env two_joins socket_a
                  (EvDisconnect (JString (utf16 "transport close"))) H)).
Defined.

(** C2 at work: Ann joins an empty chat. *)
Lemma C2_join_sequence_witness :
  no_fault sample_env
  ∧ validateName (JString (utf16 "  Ann   ")) = Some (utf16 "Ann")
  ∧ emits (trace_of (handle sample_env socket_a
                       (EvJoin (JString (utf16 "  Ann   "))) initial))
    = [ (ToOthers socket_a,
         system_message NoticeJoin (utf16 "Ann присоединился(ась) к чату"));
        (ToOne socket_a, joined (utf16 "Ann"));
        (ToAll, online_count 1) ].
Proof.
  assert (H : validateName (JString (utf16 "  Ann   ")) = Some (utf16 "Ann"))
    by reflexivity.
  split; [exact no_fault_sample|]. split; [exact H|].
  rewrite (proj1 (C2_join_sequence sample_env socket_a _ _ initial ∅
                    no_fault_sample H)).
  vm_compute. reflexivity.
Defined.

(** The state after the join of Ann is reachable. *)
Lemma Reachable_ann_joined : Reachable ann_joined.
Proof. apply Reachable_step, Reachable_initial. Defined.

(** C3 at work: Ann, alone in the chat, disconnects. *)
Lemma C3_disconnect_witness :
  Reachable ann_joined
  ∧ no_fault sample_env
  ∧ emits (trace_of (handle sample_env socket_a
                       (EvDisconnect (JString (utf16 "transport close")))
                       ann_joined))
    = [ (ToOthers socket_a,
         system_message NoticeLeave (utf16 "Ann вышел(ла) из чата"));
        (ToAll, online_count 0) ].
Proof.
  split; [exact Reachable_ann_joined|]. split; [exact no_fault_sample|].
  pose proof (C3_disconnect sample_env socket_a
                (JString (utf16 "transport close")) ann_joined ∅
                Reachable_ann_joined no_fault_sample) as H.
  change (users ann_joined !! socket_a) with (Some {| name := utf16 "Ann" |}) in H.
  cbv zeta iota beta in H. rewrite (proj1 H). vm_compute. reflexivity.
Defined.

(** C4 at work: a connection that never joined sends a message. *)
Lemma C4_chat_before_join_witness :
  no_fault sample_env
  ∧ users ann_joined !! socket_b = None
  ∧ handle sample_env socket_b
      (EvChatMessage (JObject [(utf16 "text", JString (utf16 "hi"))])) ann_joined
    = (Normal tt, advance ann_joined,
       [Emit (ToOne socket_b) (error_message MSG_NAME_FIRST)]).
Proof.
  assert (H : users ann_joined !! socket_b = None) by reflexivity.
  split; [exact no_fault_sample|]. split; [exact H|].
  exact (proj1 (C4_chat_before_join sample_env socket_b _ ann_joined ∅
                  no_fault_sample H)).
Defined.

(** C5 at work: Ann sends a blank text, then a text to be normalized. *)
Lemma C5_chat_from_joined_witness :
  users ann_joined !! socket_a = Some {| name := utf16 "Ann" |}
  ∧ handle sample_env socket_a
      (EvChatMessage (JObject [(utf16 "text", JString (utf16 "   "))])) ann_joined
    = (Normal tt, ann_joined, [])
  ∧ emits (trace_of
             (handle sample_env socket_a
                (EvChatMessage (JObject [(utf16 "text", JString (utf16 " hi  there "))]))
                ann_joined))
    = [ (ToAll,
         chat_message
           {| id := utf16 "1700000000000-4fzyo8";
              author := utf16 "Ann";
              text := utf16 "hi there";
              ts := 1700000000002 |}) ].
Proof.
  assert (H : users ann_joined !! socket_a = Some {| name := utf16 "Ann" |})
    by reflexivity.
  split; [exact H|]. split.
  - apply (proj1 (C5_chat_from_joined sample_env socket_a _ _ ann_joined ∅ H)).
    reflexivity.
  - assert (Hne : sanitize
                     (optional_get (JObject [(utf16 "text", JString (utf16 " hi  there "))])
                        (utf16 "text")) 1000 ≠ [])
      by (vm_compute; discriminate).
    rewrite (proj1 (proj2 (proj2
               (C5_chat_from_joined sample_env socket_a _ _ ann_joined ∅ H))
               no_fault_sample Hne)).
    vm_compute. reflexivity.
Defined.

(** C7 at work: Bob, not joined, is ignored; Ann sends [typing(true)]
    twice and then [typing(false)], and three broadcasts carry these
    states. *)
Lemma C7_typing_relay_witness :
  users ann_joined !! socket_b = None
  ∧ users ann_joined !! socket_a = Some {| name := utf16 "Ann" |}
  ∧ no_fault sample_env
  ∧ handle sample_env socket_b (EvTyping (JBool true)) ann_joined
    = (Normal tt, ann_joined, [])
  ∧ emits (trace_of
             (run sample_env
                [ (socket_a, EvTyping (JBool true));
                  (socket_a, EvTyping (JBool true));
                  (socket_a, EvTyping (JBool false)) ]
                ann_joined))
    = [ (ToAll, typing (utf16 "Ann") true socket_a);
        (ToAll, typing (utf16 "Ann") true socket_a);
        (ToAll, typing (utf16 "Ann") false socket_a) ]
  ∧ handle sample_env socket_a (EvTyping (JBool true)) ann_joined
    = (Normal tt, advance ann_joined,
       [Emit ToAll (typing (utf16 "Ann") true socket_a)])
  ∧ handle sample_env socket_a (EvTyping (JBool false)) ann_joined
    = (Normal tt, advance ann_joined,
       [Emit ToAll (typing (utf16 "Ann") false socket_a)]).
Proof.
  assert (Hb : users ann_joined !! socket_b = None) by reflexivity.
  assert (Ha : users ann_joined !! socket_a = Some {| name := utf16 "Ann" |})
    by reflexivity.
  pose proof (proj2 (C7_typing_relay sample_env socket_a ann_joined ∅)
                _ Ha no_fault_sample) as H.
  split; [exact Hb|]. split; [exact Ha|]. split; [exact no_fault_sample|].
  split; [|split; [|split]].
  - exact (proj1 (C7_typing_relay sample_env socket_b ann_joined ∅) Hb (JBool true)).
  - exact (proj1 (proj2 H) [JBool true; JBool true; JBool false]).
  - exact (proj1 H (JBool true)).
  - exact (proj1 H (JBool false)).
Defined.

(** C8 at work: the join of Ann when the notice to the others fails. *)
Lemma C8_try_catch_contains_fault_witness :
  single_fault (failing_at 1 boom)
  ∧ has_try_catch (EvJoin (JString (utf16 "Ann"))) = true
  ∧ completion_of (handle (failing_at 1 boom) socket_a
                     (EvJoin (JString (utf16 "Ann"))) initial) = Normal tt
  ∧ users (state_of (handle (failing_at 1 boom) socket_a
                       (EvJoin (JString (utf16 "Ann"))) initial))
    = <[socket_a := {| name := utf16 "Ann" |}]> ∅
  ∧ ∃ before,
      trace_of (handle (failing_at 1 boom) socket_a
                  (EvJoin (JString (utf16 "Ann"))) initial)
      = before ++ [ Log (LogJoinError (JString (utf16 "boom")));
                    Emit (ToOne socket_a) (error_message MSG_JOIN_FAILED) ].
Proof.
  split; [apply single_fault_failing_at|]. split; [reflexivity|].
  pose proof (C8_try_catch_contains_fault (failing_at 1 boom) socket_a
                (EvJoin (JString (utf16 "Ann"))) initial
                (single_fault_failing_at 1 boom) eq_refl) as H.
  split; [exact (proj1 H)|]. split; [exact (proj1 (proj2 H))|].
  apply (proj2 (proj2 H) 1%nat boom); [|reflexivity].
  vm_compute. lia.
Defined.

(** C9 at work: the error for a message sent before joining. *)
Lemma C9_errors_are_to_one_witness :
  (ToOne socket_b, error_message MSG_NAME_FIRST)
    ∈ emits (trace_of (handle sample_env socket_b (EvChatMessage JNull) ann_joined))
  ∧ recipients {[socket_a; socket_b]} (ToOne socket_b) = {[socket_b]}.
Proof.
  assert (H : (ToOne socket_b, error_message MSG_NAME_FIRST)
                ∈ emits (trace_of (handle sample_env socket_b
                                     (EvChatMessage JNull) ann_joined)))
    by (vm_compute; left).
  split; [exact H|].
  exact (proj2 (proj1 (C9_errors_are_to_one sample_env ann_joined
                         (ToOne socket_b) MSG_NAME_FIRST {[socket_a; socket_b]})
                  socket_b (EvChatMessage JNull) H)).
Defined.

(** C10 at work: Ann sends the number 42 as payload. *)
Lemma C10_malformed_payload_dropped_witness :
  users ann_joined !! socket_a = Some {| name := utf16 "Ann" |}
  ∧ has_string_text (JNumber (NumFinite false 42 0)) = false
  ∧ handle sample_env socket_a (EvChatMessage (JNumber (NumFinite false 42 0)))
      ann_joined
    = (Normal tt, ann_joined, []).
Proof.
  assert (H : users ann_joined !! socket_a = Some {| name := utf16 "Ann" |})
    by reflexivity.
  split; [exact H|]. split; [reflexivity|].
  exact (proj1 (C10_malformed_payload_dropped sample_env socket_a
                  (JNumber (NumFinite false 42 0)) _ ann_joined H eq_refl)).
Defined.

(** * Further properties of the server *)

(** ** Validation *)

Lemma replace_ws_runs_fixed b s :
  single_spaced s = true →
  (b = true → is_ws (default 0 (head s)) = false) →
  replace_ws_runs b s = s.
Proof.
  revert b. induction s as [|c s IH]; intros b Hs Hb; [done|].
  simpl in Hs. apply andb_prop in Hs as [Hc Hs]. simpl.
  destruct (is_ws c) eqn:Ec.
  - destruct b; [specialize (Hb eq_refl); simpl in Hb; congruence|].
    apply andb_prop in Hc as [Hsp Hnext]. apply N.eqb_eq in Hsp. subst c.
    f_equal. apply IH; [done|]. intros _.
    destruct s as [|d s]; [reflexivity|]. simpl.
    by destruct (is_ws d).
  - f_equal. by apply IH.
Qed.

Lemma trimStart_fixed s : is_ws (default 0 (head s)) = false → trimStart s = s.
Proof. destruct s as [|c s]; [done|]. simpl. by intros ->. Qed.

Lemma trimEnd_fixed s : is_ws (default 0 (last s)) = false → trimEnd s = s.
Proof.
  intros H. unfold trimEnd. rewrite trimStart_fixed.
  - apply reverse_involutive.
  - by rewrite head_reverse.
Qed.

Lemma trim_fixed s :
  is_ws (default 0 (head s)) = false → is_ws (default 0 (last s)) = false →
  trim s = s.
Proof.
  intros Hh Hl. unfold trim. rewrite (trimStart_fixed s Hh). by apply trimEnd_fixed.
Qed.

Lemma sanitize_head raw maxLen : is_ws (default 0 (head (sanitize raw maxLen))) = false.
Proof.
  destruct (head (sanitize raw maxLen)) as [c|] eqn:Hh; [|reflexivity].
  destruct raw; try discriminate Hh. simpl in *. by apply trim_head in Hh.
Qed.

Lemma sanitize_last raw maxLen : is_ws (default 0 (last (sanitize raw maxLen))) = false.
Proof.
  destruct (last (sanitize raw maxLen)) as [c|] eqn:Hl; [|reflexivity].
  destruct raw; try discriminate Hl. simpl in *. by apply trim_last in Hl.
Qed.

Lemma sanitize_fixed raw maxLen :
  sanitize (JString (sanitize raw maxLen)) maxLen = sanitize raw maxLen.
Proof.
  change (sanitize (JString (sanitize raw maxLen)) maxLen)
    with (trim (replace_ws_runs false (substring0 (sanitize raw maxLen) maxLen))).
  rewrite substring0_id by apply sanitize_length.
  rewrite replace_ws_runs_fixed; [|apply sanitize_single_spaced|done].
  apply trim_fixed; [apply sanitize_head|apply sanitize_last].
Qed.

(** X1: [sanitize] is idempotent: a text that went through it is left as
    it is by a second pass with the same bound. *)
Theorem X1_sanitize_idempotent (raw : JsValue) (maxLen : Z) :
  sanitize (JString (sanitize raw maxLen)) maxLen = sanitize raw maxLen.
Proof. apply sanitize_fixed. Qed.

(** X2: [validateName] and [validateText] return [null] exactly on the
    inputs that are not strings and on the strings whose first 40 (resp.
    1000) code units are all whitespace, the empty string among them; a
    value they return is never empty. *)
Theorem X2_validate_null_iff_blank (raw : JsValue) :
  (validateName raw = None
   ↔ match raw with JString s => forallb is_ws (take 40 s) = true | _ => True end)
  ∧ (validateText raw = None
     ↔ match raw with JString s => forallb is_ws (take 1000 s) = true | _ => True end)
  ∧ validateName raw ≠ Some []
  ∧ validateText raw ≠ Some [].
Proof.
  unfold validateName, validateText. rewrite !or_null_None.
  split; [|split; [|split]].
  - destruct raw; try done. apply sanitize_nil.
  - destruct raw; try done. apply sanitize_nil.
  - by destruct (sanitize raw 40).
  - by destruct (sanitize raw 1000).
Qed.

(** ** The handlers *)

Lemma on_join_ok env (socket : SocketId) rawName nm st :
  no_fault env → validateName rawName = Some nm →
  handle env socket (EvJoin rawName) st
  = (Normal tt,
     {| users := <[socket := {| name := nm |}]> (users st);
        tick := 4 + tick st; reads := reads st |},
     [ Log (LogJoined nm socket);
       Emit (ToOthers socket) (system_message NoticeJoin (nm ++ TEXT_JOINED));
       Emit (ToOne socket) (joined nm);
       Emit ToAll (online_count (size (<[socket := {| name := nm |}]> (users st)))) ]).
Proof.
  intros Hq Hname. destruct st as [registry t k]. hub_unfold.
  rewrite Hname, !Hq. reflexivity.
Qed.

Lemma on_disconnect_ok env (socket : SocketId) reason u st :
  no_fault env → users st !! socket = Some u → name u ≠ [] →
  handle env socket (EvDisconnect reason) st
  = (Normal tt,
     {| users := delete socket (users st); tick := 3 + tick st; reads := reads st |},
     [ Log (LogDisconnected (name u) socket reason);
       Emit (ToOthers socket) (system_message NoticeLeave (name u ++ TEXT_LEFT));
       Emit ToAll (online_count (size (delete socket (users st)))) ]).
Proof.
  intros Hq Hu Hne. destruct st as [registry t k]. simpl in Hu. hub_unfold.
  rewrite Hu. destruct (name u) as [|c nm] eqn:En; [done|].
  cbv [truthy]. rewrite !Hq. reflexivity.
Qed.

(** X3: a join whose name does not pass validation is answered by the
    notice of an incorrect name, sent to that connection alone; nothing is
    broadcast, nothing is logged and the registry stays as it is. *)
Theorem X3_join_invalid_name (env : Env) (socket : SocketId) (rawName : JsValue)
    (st : State) :
  no_fault env →
  validateName rawName = None →
  handle env socket (EvJoin rawName) st
  = (Normal tt, advance st, [Emit (ToOne socket) (error_message MSG_BAD_NAME)])
  ∧ users (advance st) = users st.
Proof.
  intros Hq Hname. split; [|done]. destruct st as [registry t k]. hub_unfold.
  rewrite Hname, Hq. reflexivity.
Qed.

(** X4: a join sent by a connection that is already registered replaces
    its name and leaves every other entry and the number of participants
    as they were: the count published is the one from before the join. *)
Theorem X4_rejoin_keeps_count (env : Env) (socket : SocketId) (rawName : JsValue)
    (nm : jsstring) (u0 : User) (st : State) :
  no_fault env →
  users st !! socket = Some u0 →
  validateName rawName = Some nm →
  let r := handle env socket (EvJoin rawName) st in
  users (state_of r) !! socket = Some {| name := nm |}
  ∧ size (users (state_of r)) = size (users st)
  ∧ emits (trace_of r)
    = [ (ToOthers socket, system_message NoticeJoin (nm ++ TEXT_JOINED));
        (ToOne socket, joined nm);
        (ToAll, online_count (size (users st))) ].
Proof.
  intros Hq Hu Hname r. subst r. rewrite (on_join_ok env socket rawName nm st Hq Hname).
  cbn [state_of trace_of fst snd users].
  assert (Hsize : size (<[socket := {| name := nm |}]> (users st)) = size (users st))
    by (apply map_size_insert_Some; eauto).
  split; [apply lookup_insert_eq|]. split; [exact Hsize|].
  cbv [emits omap list_omap]. by rewrite Hsize.
Qed.

(** X5: when a connection that is not registered joins and then
    disconnects, the registry is back to what it was; the two counts
    published are the old size plus one and the old size. *)
Theorem X5_join_then_disconnect (env : Env) (socket : SocketId)
    (rawName reason : JsValue) (nm : jsstring) (st : State) :
  no_fault env →
  users st !! socket = None →
  validateName rawName = Some nm →
  let r := run env [(socket, EvJoin rawName); (socket, EvDisconnect reason)] st in
  completion_of r = Normal tt
  ∧ users (state_of r) = users st
  ∧ emits (trace_of r)
    = [ (ToOthers socket, system_message NoticeJoin (nm ++ TEXT_JOINED));
        (ToOne socket, joined nm);
        (ToAll, online_count (S (size (users st))));
        (ToOthers socket, system_message NoticeLeave (nm ++ TEXT_LEFT));
        (ToAll, online_count (size (users st))) ].
Proof.
  intros Hq Hnone Hname r. subst r.
  assert (Hne : nm ≠ []).
  { unfold validateName in Hname. by apply or_null_Some in Hname as [-> Hname]. }
  rewrite run_cons, (on_join_ok env socket rawName nm st Hq Hname).
  rewrite run_single.
  rewrite (on_disconnect_ok env socket reason {| name := nm |} _ Hq);
    [|apply lookup_insert_eq|exact Hne].
  cbn [completion_of state_of trace_of fst snd users name].
  rewrite (delete_insert_id (users st) socket _ Hnone).
  rewrite (map_size_insert_None socket _ (users st) Hnone).
  done.
Qed.

(** X6: no event of one connection touches the registry entry of another
    connection, in any environment. *)
Theorem X6_other_entries_untouched (env : Env) (socket other : SocketId)
    (ev : Inbound) (st : State) :
  other ≠ socket →
  users (state_of (handle env socket ev st)) !! other = users st !! other.
Proof.
  intros Hne. rewrite handle_users. destruct ev as [rawName| | |reason]; simpl; try done.
  - destruct (validateName rawName); [|done]. by rewrite lookup_insert_ne.
  - by rewrite lookup_delete_ne.
Qed.

(** X7: in any environment, and even when the handler is left by an
    exception, a disconnect removes the entry of the connection, while a
    chat message or a typing event never changes the registry. *)
Theorem X7_registry_effects (env : Env) (socket : SocketId) (v : JsValue)
    (st : State) :
  users (state_of (handle env socket (EvDisconnect v) st)) !! socket = None
  ∧ users (state_of (handle env socket (EvChatMessage v) st)) = users st
  ∧ users (state_of (handle env socket (EvTyping v) st)) = users st.
Proof.
  rewrite !handle_users. simpl. split; [apply lookup_delete_eq|done].
Qed.

Ltac elem_cases H :=
  repeat match type of H with
    | _ ∈ [] => by apply elem_of_nil in H
    | _ ∈ _ :: _ => apply elem_of_cons in H as [H|H]; [try discriminate H|]
    end.

(** X9: a connection without a registry entry cannot make the server
    broadcast unless it joins: whatever it sends as chat message, typing
    event or disconnect, in any environment, every emission goes to that
    connection alone. *)
Theorem X9_unjoined_cannot_broadcast (env : Env) (socket : SocketId)
    (ev : Inbound) (st : State) (to : Target) (out : Outbound) :
  users st !! socket = None →
  (∀ rawName, ev ≠ EvJoin rawName) →
  (to, out) ∈ emits (trace_of (handle env socket ev st)) →
  to = ToOne socket ∧ is_Some (match out with error_message t => Some t | _ => None end).
Proof.
  intros Hnone Hev. destruct st as [registry t k]. simpl in Hnone.
  destruct ev as [rawName|payload|isTyping|reason]; [by destruct (Hev rawName)| | |].
  all: hub_unfold; rewrite Hnone; hub_cases;
    cbv [emits omap list_omap app]; intros H; elem_cases H.
  all: injection H as -> ->; eauto.
Qed.

(** X10: a chat message is broadcast only by the chat_message handler,
    to all connections, and what it carries does not depend on anything
    else in the payload: its author is the name registered for the sending
    connection and its text is the sanitized [text] of the payload, not
    empty and at most 1000 code units long. *)
Theorem X10_chat_broadcast_integrity (env : Env) (socket : SocketId)
    (ev : Inbound) (st : State) (to : Target) (m : Message) :
  (to, chat_message m) ∈ emits (trace_of (handle env socket ev st)) →
  to = ToAll
  ∧ ∃ payload u,
      ev = EvChatMessage payload
      ∧ users st !! socket = Some u
      ∧ author m = name u
      ∧ text m = sanitize (optional_get payload (utf16 "text")) 1000
      ∧ text m ≠ []
      ∧ (length (text m) ≤ 1000)%nat.
Proof.
  destruct st as [registry t k].
  destruct ev as [rawName|payload|isTyping|reason].
  all: hub_unfold; hub_cases; cbv [emits omap list_omap app]; intros H;
    elem_cases H.
  injection H as -> ->. split; [done|]. exists payload, u.
  unfold validateText in Htext. apply or_null_Some in Htext as [-> Hne].
  cbn [author text users]. repeat split; try done.
  apply (sanitize_length _ 1000).
Qed.

(** X11: a typing event is broadcast only by the typing handler, to all
    connections; it carries the name registered for the sending connection,
    the id of that connection and the typing state as a boolean. *)
Theorem X11_typing_broadcast_integrity (env : Env) (socket : SocketId)
    (ev : Inbound) (st : State) (to : Target) (nm : jsstring) (flag : bool)
    (sid : SocketId) :
  (to, typing nm flag sid) ∈ emits (trace_of (handle env socket ev st)) →
  to = ToAll ∧ sid = socket
  ∧ ∃ isTyping u,
      ev = EvTyping isTyping
      ∧ users st !! socket = Some u
      ∧ nm = name u
      ∧ flag = truthy isTyping.
Proof.
  destruct st as [registry t k].
  destruct ev as [rawName|payload|isTyping|reason].
  all: hub_unfold; hub_cases; cbv [emits omap list_omap app]; intros H;
    elem_cases H.
  injection H as -> -> -> ->. repeat split. by exists isTyping, u.
Qed.

(** ** Registered names *)

Lemma registry_after_sanitized (socket : SocketId) ev registry :
  (∀ s u, registry !! s = Some u → ∃ raw, name u = sanitize raw 40 ∧ name u ≠ []) →
  ∀ s u, registry_after socket ev registry !! s = Some u →
         ∃ raw, name u = sanitize raw 40 ∧ name u ≠ [].
Proof.
  intros Hv s u. destruct ev as [rawName| | |reason]; simpl; try apply Hv.
  - destruct (validateName rawName) as [n|] eqn:E; [|apply Hv].
    destruct (decide (socket = s)) as [->|Hne].
    + rewrite lookup_insert_eq. intros [= <-]. simpl.
      unfold validateName in E. apply or_null_Some in E as [-> E]. by exists rawName.
    + rewrite lookup_insert_ne by done. apply Hv.
  - intros Hs. apply lookup_delete_Some in Hs as [_ Hs]. by apply (Hv s).
Qed.

Lemma Reachable_sanitized st :
  Reachable st →
  ∀ s u, users st !! s = Some u → ∃ raw, name u = sanitize raw 40 ∧ name u ≠ [].
Proof.
  induction 1 as [|env socket ev st _ IH].
  - intros s u Hs. cbv [initial users] in Hs. by rewrite lookup_empty in Hs.
  - rewrite handle_users. by apply registry_after_sanitized.
Qed.

(** X8: in every reachable state each registered name is normalized: it is
    not empty, has at most 40 code units, neither starts nor ends with
    whitespace, holds no whitespace but single spaces, and validating it
    again gives it back. *)
Theorem X8_registered_names_normalized (st : State) (socket : SocketId) (u : User) :
  Reachable st →
  users st !! socket = Some u →
  name u ≠ []
  ∧ (length (name u) ≤ 40)%nat
  ∧ is_ws (default 0 (head (name u))) = false
  ∧ is_ws (default 0 (last (name u))) = false
  ∧ single_spaced (name u) = true
  ∧ validateName (JString (name u)) = Some (name u).
Proof.
  intros Hreach Hu.
  destruct (Reachable_sanitized st Hreach socket u Hu) as (raw & Hraw & Hne).
  split; [exact Hne|]. rewrite Hraw.
  split; [apply (sanitize_length raw 40)|].
  split; [apply sanitize_head|]. split; [apply sanitize_last|].
  split; [apply sanitize_single_spaced|].
  unfold validateName. rewrite sanitize_fixed.
  rewrite Hraw in Hne. by destruct (sanitize raw 40).
Qed.

(** * Properties of the client *)

(** ** [sanitizeText] *)

Lemma slice0_nonneg s max : (0 ≤ max)%Z → Client.slice0 s max = take (Z.to_nat max) s.
Proof.
  intros H. unfold Client.slice0.
  destruct (max <? 0)%Z eqn:E; [apply Z.ltb_lt in E; lia|done].
Qed.

Lemma sanitizeText_inv nts v max s :
  Client.sanitizeText nts v max = Client.Ok s →
  ∃ t, Client.ToString nts (Client.nullish_or v (JString [])) = Client.Ok t
       ∧ s = Client.slice0 (trim (replace_ws_runs false t)) max.
Proof.
  unfold Client.sanitizeText.
  destruct (Client.ToString nts (Client.nullish_or v (JString []))) as [t|];
    [|discriminate].
  intros [= <-]. by exists t.
Qed.

Lemma sanitizeText_string nts s max :
  Client.sanitizeText nts (JString s) max
  = Client.Ok (Client.slice0 (trim (replace_ws_runs false s)) max).
Proof. reflexivity. Qed.

Lemma single_spaced_take n s : single_spaced s = true → single_spaced (take n s) = true.
Proof.
  intros H. apply (single_spaced_app_l _ (drop n s)). by rewrite take_drop.
Qed.

Lemma head_take_ws n s :
  is_ws (default 0 (head s)) = false → is_ws (default 0 (head (take n s))) = false.
Proof. destruct n, s; done. Qed.

Lemma trim_head_default s : is_ws (default 0 (head (trim s))) = false.
Proof.
  destruct (head (trim s)) as [c|] eqn:E; [|reflexivity]. by apply trim_head in E.
Qed.

Lemma client_text_shape t max :
  (0 ≤ max)%Z →
  let s := Client.slice0 (trim (replace_ws_runs false t)) max in
  (length s ≤ Z.to_nat max)%nat
  ∧ is_ws (default 0 (head s)) = false
  ∧ single_spaced s = true.
Proof.
  intros Hmax s. subst s. rewrite slice0_nonneg by done.
  split; [rewrite length_take; lia|]. split.
  - apply head_take_ws, trim_head_default.
  - apply single_spaced_take, trim_single_spaced, replace_ws_runs_single_spaced.
Qed.

(** What the server makes of a text shaped like the output of the client:
    it only removes whitespace at its end. *)
Lemma sanitize_of_shaped c maxLen :
  (length c ≤ Z.to_nat maxLen)%nat →
  is_ws (default 0 (head c)) = false →
  single_spaced c = true →
  sanitize (JString c) maxLen = trimEnd c.
Proof.
  intros Hlen Hhead Hsp. simpl. rewrite substring0_id by done.
  rewrite replace_ws_runs_fixed by done.
  unfold trim. by rewrite trimStart_fixed.
Qed.

Lemma trimEnd_nonempty c :
  c ≠ [] → is_ws (default 0 (head c)) = false → trimEnd c ≠ [].
Proof.
  destruct c as [|x c]; [done|]. simpl. intros _ Hx.
  by rewrite trimEnd_cons_keep.
Qed.

(** X12: whatever it is given, when [sanitizeText] returns (with a bound
    that is not negative) the text has at most [max] code units, does not
    start with whitespace and holds no whitespace but single spaces; it
    returns the empty text for [null] and [undefined], and it returns
    whenever its argument is neither an array nor an object. *)
Theorem X12_sanitizeText_shape (Number_toString : JsNum → jsstring)
    (str : JsValue) (max : Z) :
  (0 ≤ max)%Z →
  (∀ s, Client.sanitizeText Number_toString str max = Client.Ok s →
        (length s ≤ Z.to_nat max)%nat
        ∧ is_ws (default 0 (head s)) = false
        ∧ single_spaced s = true)
  ∧ match str with
    | JUndefined | JNull =>
        Client.sanitizeText Number_toString str max = Client.Ok []
    | JArray _ | JObject _ => True
    | _ => ∃ s, Client.sanitizeText Number_toString str max = Client.Ok s
    end.
Proof.
  intros Hmax. split.
  - intros s Hs. apply sanitizeText_inv in Hs as (t & _ & ->).
    by apply client_text_shape.
  - destruct str; try done; try (eexists; reflexivity).
    all: change (Client.sanitizeText Number_toString _ max)
           with (Client.Ok (Client.slice0 [] max));
      by rewrite slice0_nonneg, take_nil.
Qed.

(** X13: a name that the login form accepts is never refused by the
    server: the form keeps [sanitizeText(value, 40)], and [validateName]
    of that text is the text without the whitespace that the cut may have
    left at its end, never [null]; the two names are the same when the
    text of the form does not end with whitespace. *)
Theorem X13_login_name_accepted (Number_toString : JsNum → jsstring)
    (value nm : jsstring) :
  Client.sanitizeText Number_toString (JString value) 40 = Client.Ok nm →
  nm ≠ [] →
  validateName (JString nm) = Some (trimEnd nm)
  ∧ trimEnd nm ≠ []
  ∧ (is_ws (default 0 (last nm)) = false → validateName (JString nm) = Some nm).
Proof.
  intros Hs Hne. rewrite sanitizeText_string in Hs. injection Hs as <-.
  set (nm := Client.slice0 (trim (replace_ws_runs false value)) 40) in *.
  destruct (client_text_shape value 40 ltac:(lia)) as (Hlen & Hhead & Hsp).
  fold nm in Hlen, Hhead, Hsp.
  assert (Hserver : sanitize (JString nm) 40 = trimEnd nm)
    by (by apply sanitize_of_shaped).
  assert (Hne' : trimEnd nm ≠ []) by (by apply trimEnd_nonempty).
  assert (Hv : validateName (JString nm) = Some (trimEnd nm)).
  { unfold validateName. rewrite Hserver. by destruct (trimEnd nm). }
  split; [exact Hv|]. split; [exact Hne'|].
  intros Hlast. rewrite Hv. by rewrite trimEnd_fixed.
Qed.

(** ** [Transport.sendMessage] and the server *)

Lemma on_chat_message_ok env (socket : SocketId) payload u st c txt :
  no_fault env →
  users st !! socket = Some u →
  sanitize (optional_get payload (utf16 "text")) 1000 = c :: txt →
  ∃ m, emits (trace_of (handle env socket (EvChatMessage payload) st))
       = [(ToAll, chat_message m)]
       ∧ author m = name u ∧ text m = c :: txt.
Proof.
  intros Hq Hu Hs. destruct st as [registry t k]. simpl in Hu. hub_unfold.
  rewrite Hu. unfold validateText. rewrite Hs.
  change (or_null (c :: txt)) with (Some (c :: txt)). hub_unfold.
  rewrite !Hq. eexists. split; [reflexivity|]. done.
Qed.

(** X14: [sendMessage] sends nothing when the text is blank or the
    transport is not ready; over a ready Socket.IO transport it emits one
    chat_message whose [text] is the sanitized text, and the server never
    drops such a message: sent by a joined connection it is broadcast to
    all under the registered name, with the whitespace that the cut at
    1000 code units may have left at the end removed. *)
Theorem X14_sent_message_is_broadcast (Number_toString : JsNum → jsstring)
    (env : Env) (socket : SocketId) (st : State) (u : User)
    (t : Client.Transport) (value safe : jsstring) :
  Client.sanitizeText Number_toString (JString value) 1000 = Client.Ok safe →
  (Client.ready t = false ∨ safe = [] →
     Client.sendMessage Number_toString (Some t) (JString value) = Client.Ok [])
  ∧ (Client.ready t = true → Client.kind t = Client.socketio → safe ≠ [] →
     let payload := JObject [(utf16 "text", JString safe)] in
     Client.sendMessage Number_toString (Some t) (JString value)
     = Client.Ok [Client.emit (utf16 "chat_message") payload]
     ∧ (no_fault env → users st !! socket = Some u →
        ∃ m, emits (trace_of (handle env socket (EvChatMessage payload) st))
             = [(ToAll, chat_message m)]
             ∧ author m = name u
             ∧ text m = trimEnd safe
             ∧ text m ≠ [])).
Proof.
  intros Hsafe. split.
  - intros Hidle. unfold Client.sendMessage. rewrite Hsafe. simpl.
    destruct Hidle as [->| ->]; [by rewrite orb_true_r|done].
  - intros Hready Hkind Hne payload. split.
    + unfold Client.sendMessage. rewrite Hsafe. simpl. rewrite Hready, Hkind.
      by destruct safe.
    + intros Hq Hu. rewrite sanitizeText_string in Hsafe. injection Hsafe as Hsafe.
      destruct (client_text_shape value 1000 ltac:(lia)) as (Hlen & Hhead & Hsp).
      rewrite Hsafe in Hlen, Hhead, Hsp.
      assert (Hserver : sanitize (optional_get payload (utf16 "text")) 1000
                        = trimEnd safe)
        by (by apply sanitize_of_shaped).
      pose proof (trimEnd_nonempty safe Hne Hhead) as Hne'.
      destruct (trimEnd safe) as [|c txt] eqn:E; [done|].
      destruct (on_chat_message_ok env socket payload u st c txt Hq Hu Hserver)
        as (m & Hm & Ha & Ht).
      exists m. rewrite Ht. done.
Qed.

(** ** [validateIncomingMessage] *)

Lemma ToString_primitive nts v :
  Client.is_primitive v = true → ∃ s, Client.ToString nts v = Client.Ok s.
Proof. destruct v; try discriminate; intros _; eexists; reflexivity. Qed.

Lemma sanitizeText_primitive nts v max :
  Client.is_primitive v = true → ∃ s, Client.sanitizeText nts v max = Client.Ok s.
Proof.
  intros Hv. unfold Client.sanitizeText.
  destruct (ToString_primitive nts (Client.nullish_or v (JString []))) as [s Hs];
    [by destruct v|].
  rewrite Hs. eexists. reflexivity.
Qed.

Lemma ToNumber_primitive nts s2n v :
  Client.is_primitive v = true → ∃ n, Client.ToNumber nts s2n v = Client.Ok n.
Proof. destruct v; try discriminate; intros _; eexists; reflexivity. Qed.

(** X15: a message that [validateIncomingMessage] accepts came as an
    object; its author is not empty, at most 40 code units long, its text
    not empty, at most 1000 code units long, neither starts with
    whitespace, and its timestamp is a finite positive number or else the
    current time. *)
Theorem X15_accepted_message_shape (Number_toString : JsNum → jsstring)
    (StringToNumber : jsstring → JsNum) (nowTs : JsNum) (msg : JsValue)
    (r : Client.Incoming) :
  Client.validateIncomingMessage Number_toString StringToNumber nowTs msg
    = Client.Ok (Some r) →
  (∃ fields, msg = JObject fields)
  ∧ Client.author r ≠ [] ∧ (length (Client.author r) ≤ 40)%nat
  ∧ is_ws (default 0 (head (Client.author r))) = false
  ∧ Client.text r ≠ [] ∧ (length (Client.text r) ≤ 1000)%nat
  ∧ is_ws (default 0 (head (Client.text r))) = false
  ∧ (Client.ts r = nowTs
     ∨ (Client.isFinite (Client.ts r) = true ∧ Client.le_zero (Client.ts r) = false)).
Proof.
  unfold Client.validateIncomingMessage.
  destruct msg as [| |b|n|s|items|fields]; try (simpl; discriminate).
  intros H. split; [by exists fields|].
  cbn [Client.typeof_object negb orb] in H.
    destruct (Client.sanitizeText Number_toString
                (optional_get (JObject fields) (utf16 "author")) 40)
      as [a|] eqn:Ea; [|discriminate].
    destruct (Client.sanitizeText Number_toString
                (optional_get (JObject fields) (utf16 "text")) 1000)
      as [x|] eqn:Ex; [|discriminate].
    destruct (Client.ToNumber Number_toString StringToNumber
                (optional_get (JObject fields) (utf16 "ts")))
      as [n|] eqn:En; [|discriminate].
    simpl in H.
    apply sanitizeText_inv in Ea as (ta & _ & Ha).
    apply sanitizeText_inv in Ex as (tx & _ & Hx).
    destruct (client_text_shape ta 40 ltac:(lia)) as (Hla & Hha & _).
    destruct (client_text_shape tx 1000 ltac:(lia)) as (Hlx & Hhx & _).
    rewrite <- Ha in Hla, Hha. rewrite <- Hx in Hlx, Hhx.
    destruct a as [|ca a]; [discriminate|]. destruct x as [|cx x]; [discriminate|].
    simpl in H. injection H as <-. cbn [Client.author Client.text Client.ts].
    repeat split; try done.
    destruct (Client.isFinite n) eqn:Ef, (Client.le_zero n) eqn:Ez; simpl; auto.
Qed.

(** X16: [validateIncomingMessage] cannot throw on a message whose
    [author], [text] and [ts] are absent or hold a string, a number, a
    boolean or [null]; anything that is not an object, and [null], is
    refused without looking further. *)
Theorem X16_validateIncomingMessage_returns (Number_toString : JsNum → jsstring)
    (StringToNumber : jsstring → JsNum) (nowTs : JsNum) (msg : JsValue) :
  (Client.typeof_object msg = false ∨ msg = JNull →
     Client.validateIncomingMessage Number_toString StringToNumber nowTs msg
     = Client.Ok None)
  ∧ (Client.is_primitive (optional_get msg (utf16 "author")) = true →
     Client.is_primitive (optional_get msg (utf16 "text")) = true →
     Client.is_primitive (optional_get msg (utf16 "ts")) = true →
     ∃ r, Client.validateIncomingMessage Number_toString StringToNumber nowTs msg
          = Client.Ok r).
Proof.
  split.
  - intros [H| ->]; [|reflexivity].
    unfold Client.validateIncomingMessage. by rewrite H.
  - intros Ha Hx Hn. unfold Client.validateIncomingMessage.
    destruct (negb (Client.typeof_object msg) || _); [by eexists|].
    destruct (sanitizeText_primitive Number_toString _ 40 Ha) as [a ->].
    destruct (sanitizeText_primitive Number_toString _ 1000 Hx) as [x ->].
    destruct (ToNumber_primitive Number_toString StringToNumber _ Hn) as [n ->].
    simpl. destruct (Client.is_empty a || Client.is_empty x); by eexists.
Qed.

(** An author that is an object with an own [toString] makes the
    validation throw. *)
Example validateIncomingMessage_throws :
  Client.validateIncomingMessage (fun _ => []) (fun _ => NumNaN) NumNaN
    (JObject [ (utf16 "author", JObject [(utf16 "toString", JNumber (NumFinite false 1 0))]);
               (utf16 "text", JString (utf16 "hi")) ])
  = Client.TypeError.
Proof. reflexivity. Qed.

(** ** From the server to the client *)

Lemma sanitizeText_of_sanitized nts raw maxLen :
  Client.sanitizeText nts (JString (sanitize raw maxLen)) maxLen
  = Client.Ok (sanitize raw maxLen).
Proof.
  rewrite sanitizeText_string. f_equal.
  rewrite replace_ws_runs_fixed; [|apply sanitize_single_spaced|done].
  rewrite trim_fixed; [|apply sanitize_head|apply sanitize_last].
  unfold Client.slice0. destruct (maxLen <? 0)%Z eqn:E.
  - apply Z.ltb_lt in E. pose proof (sanitize_length raw maxLen) as Hl.
    replace (Z.to_nat maxLen) with 0%nat in Hl by lia.
    destruct (sanitize raw maxLen); [by rewrite take_nil|simpl in Hl; lia].
  - apply take_ge, sanitize_length.
Qed.

Lemma chat_emission_inv env (socket : SocketId) ev st to m :
  (to, chat_message m) ∈ emits (trace_of (handle env socket ev st)) →
  ∃ payload u,
    users st !! socket = Some u
    ∧ author m = name u
    ∧ text m = sanitize (optional_get payload (utf16 "text")) 1000
    ∧ text m ≠ [].
Proof.
  destruct st as [registry t k].
  destruct ev as [rawName|payload|isTyping|reason].
  all: hub_unfold; hub_cases; cbv [emits omap list_omap app]; intros H;
    elem_cases H.
  injection H as -> ->. exists payload, u.
  unfold validateText in Htext. apply or_null_Some in Htext as [-> Hne].
  cbn [author text users]. done.
Qed.

(** X17: every chat message that the server broadcasts from a reachable
    state, with the timestamp of a clock that is past 1970, passes the
    validation of the client unchanged: same author, same text, same
    timestamp. *)
Theorem X17_broadcast_passes_client (Number_toString : JsNum → jsstring)
    (StringToNumber : jsstring → JsNum) (nowTs : JsNum) (env : Env)
    (socket : SocketId) (ev : Inbound) (st : State) (to : Target) (m : Message) :
  Reachable st →
  (to, chat_message m) ∈ emits (trace_of (handle env socket ev st)) →
  (0 < ts m)%Z →
  Client.validateIncomingMessage Number_toString StringToNumber nowTs
    (message_payload m)
  = Client.Ok (Some {| Client.author := author m;
                       Client.text := text m;
                       Client.ts := num_of_Z (ts m) |}).
Proof.
  intros Hreach Hin Hts.
  destruct (chat_emission_inv env socket ev st to m Hin)
    as (payload & u & Hu & Ha & Ht & Hne).
  destruct (Reachable_sanitized st Hreach socket u Hu) as (raw & Hraw & Hnm).
  unfold Client.validateIncomingMessage.
  change (optional_get (message_payload m) (utf16 "author")) with (JString (author m)).
  change (optional_get (message_payload m) (utf16 "text")) with (JString (text m)).
  change (optional_get (message_payload m) (utf16 "ts"))
    with (JNumber (num_of_Z (ts m))).
  cbn [Client.typeof_object message_payload negb orb].
  rewrite Ht in Hne. rewrite Hraw in Hnm. rewrite Ha, Hraw, Ht.
  rewrite !sanitizeText_of_sanitized.
  cbn [mbind Client.Result_bind Client.ToNumber].
  destruct (sanitize raw 40) as [|ca a]; [done|].
  destruct (sanitize (optional_get payload (utf16 "text")) 1000) as [|cx x]; [done|].
  cbn [Client.is_empty orb].
  assert (Hz : (ts m <? 0)%Z = false) by (apply Z.ltb_ge; lia).
  assert (Hn : (Z.abs_N (ts m) =? 0) = false) by (apply N.eqb_neq; lia).
  unfold num_of_Z. cbn [Client.isFinite Client.le_zero negb orb].
  by rewrite Hz, Hn.
Qed.

(** ** The debounce of the typing status *)

Lemma typing_calls_app c1 c2 :
  Client.typing_calls (c1 ++ c2) = Client.typing_calls c1 ++ Client.typing_calls c2.
Proof. apply omap_app. Qed.

(** One event either leaves the flag and sends no status, or flips the flag
    and sends the new value; the flag and the pending timeout stay equal. *)
Lemma ui_step_flip ui e :
  Client.typing ui = Client.typingTimer ui →
  let '(ui1, calls) := Client.ui_step ui e in
  Client.typing ui1 = Client.typingTimer ui1
  ∧ ((Client.typing ui1 = Client.typing ui ∧ Client.typing_calls calls = [])
     ∨ (Client.typing ui1 = negb (Client.typing ui)
        ∧ Client.typing_calls calls = [negb (Client.typing ui)])).
Proof.
  destruct ui as [[] []], e; simpl; intros H; try discriminate H; auto.
Qed.

Lemma ui_run_alternates events ui :
  Client.typing ui = Client.typingTimer ui →
  let '(ui2, calls) := Client.ui_run events ui in
  Client.alternates (negb (Client.typing ui)) (Client.typing_calls calls) = true
  ∧ Client.typing ui2 = Client.typingTimer ui2
  ∧ Client.typing ui2 = default (Client.typing ui) (last (Client.typing_calls calls)).
Proof.
  revert ui. induction events as [|e events IH]; intros ui Hinv; [done|].
  simpl. pose proof (ui_step_flip ui e Hinv) as Hstep.
  destruct (Client.ui_step ui e) as [ui1 calls1].
  destruct Hstep as [Hinv1 Hflip]. specialize (IH ui1 Hinv1).
  destruct (Client.ui_run events ui1) as [ui2 calls2].
  destruct IH as (Halt & Hinv2 & Hlast). rewrite typing_calls_app.
  destruct Hflip as [[Hsame ->]|[Hneg ->]]; simpl.
  - rewrite Hsame in Halt, Hlast. done.
  - rewrite Hneg in Halt, Hlast. rewrite eqb_reflx, Halt.
    split; [done|]. split; [done|]. rewrite Hlast.
    by destruct (Client.typing_calls calls2) as [|b l] using rev_ind;
      [|rewrite app_comm_cons, !last_snoc].
Qed.

(** X18: whatever the sequence of keystrokes, timeouts and submissions,
    the typing states that the page hands to [Transport.setTyping]
    alternate, starting with [true]: the same state is never announced
    twice in a row.  The flag [typing] is set exactly while a timeout is
    pending, and it is the last state announced. *)
Theorem X18_typing_states_alternate (events : list Client.UiEvent) :
  let r := Client.ui_run events Client.ui_initial in
  Client.alternates true (Client.typing_calls r.2) = true
  ∧ Client.typing r.1 = Client.typingTimer r.1
  ∧ Client.typing r.1 = default false (last (Client.typing_calls r.2)).
Proof.
  pose proof (ui_run_alternates events Client.ui_initial eq_refl) as H.
  by destruct (Client.ui_run events Client.ui_initial) as [ui2 calls].
Qed.

(** ** The typing indicator *)

Lemma typing_emission_inv env (socket : SocketId) ev st to nm flag sid :
  (to, typing nm flag sid) ∈ emits (trace_of (handle env socket ev st)) →
  ∃ u, users st !! socket = Some u ∧ nm = name u.
Proof.
  destruct st as [registry t k].
  destruct ev as [rawName|payload|isTyping|reason].
  all: hub_unfold; hub_cases; cbv [emits omap list_omap app]; intros H;
    elem_cases H.
  injection H as -> -> -> ->. by exists u.
Qed.

Lemma on_typing_payload nts userName nm flag sid el :
  nm ≠ [] →
  Client.on_typing nts userName (typing_payload nm flag sid) el
  = if bool_decide (nm = userName) then Client.Ok el
    else if flag
         then Client.Ok {| Client.textContent := nm ++ Client.TEXT_TYPING;
                           Client.hidden := false |}
         else Client.Ok {| Client.textContent := Client.textContent el;
                           Client.hidden := true |}.
Proof.
  intros Hne. unfold Client.on_typing.
  change (optional_get (typing_payload nm flag sid) (utf16 "name")) with (JString nm).
  change (optional_get (typing_payload nm flag sid) (utf16 "isTyping"))
    with (JBool flag).
  cbn [typing_payload Client.strict_eq_string truthy].
  destruct nm as [|c nm]; [done|]. cbn [negb orb].
  destruct (bool_decide (c :: nm = userName)); [done|]. by destruct flag.
Qed.

(** The name under which the server registers the name kept by the
    page is that name without the whitespace at its end. *)
Lemma form_name_registered nts (value userName nm : jsstring) :
  Client.sanitizeText nts (JString value) 40 = Client.Ok userName →
  validateName (JString userName) = Some nm →
  nm = trimEnd userName.
Proof.
  intros Hs Hv. rewrite sanitizeText_string in Hs. injection Hs as <-.
  destruct (client_text_shape value 40 ltac:(lia)) as (Hlen & Hhead & Hsp).
  unfold validateName in Hv. rewrite sanitize_of_shaped in Hv by done.
  by apply or_null_Some in Hv as [-> _].
Qed.

Lemma trimEnd_same_iff s :
  trimEnd s = s ↔ is_ws (default 0 (last s)) = false.
Proof.
  split; [|apply trimEnd_fixed].
  intros H. destruct (last s) as [c|] eqn:Hl; [|reflexivity]. simpl.
  rewrite <- H in Hl. by apply trimEnd_last in Hl.
Qed.

(** The login value of 39 letters, a blank and one more letter: the page
    keeps the first 40 code units, blank included, the server registers
    the 39 letters, and the page shows the typing of its own user. *)
Example own_typing_shown_after_cut :
  let value := replicate 39 97 ++ utf16 " b" in
  let userName := replicate 39 97 ++ utf16 " " in
  let nm := replicate 39 97 in
  Client.sanitizeText sample_Number_toString (JString value) 40 = Client.Ok userName
  ∧ validateName (JString userName) = Some nm
  ∧ Client.on_typing sample_Number_toString userName
      (typing_payload nm true socket_a)
      {| Client.textContent := []; Client.hidden := true |}
    = Client.Ok {| Client.textContent := nm ++ Client.TEXT_TYPING;
                   Client.hidden := false |}.
Proof. vm_compute. repeat split. Qed.

(** X19: for every typing event that the server broadcasts from a
    reachable state, a page whose user name is exactly the name in the
    event leaves its indicator as it is, and a page with any other user
    name shows that name followed by the typing text, or hides the
    indicator when the state is false.  For the event of the page's own
    user (the name in the event is the one the server registered for the
    name kept by the page) this means: the page ignores it when the name it
    kept does not end with whitespace, and handles it like the typing of
    somebody else when it does, which happens when the login value was cut
    at 40 code units on a blank. *)
Theorem X19_typing_indicator (Number_toString : JsNum → jsstring) (env : Env)
    (socket : SocketId) (ev : Inbound) (st : State) (to : Target)
    (nm : jsstring) (flag : bool) (sid : SocketId) (userName : jsstring)
    (el : Client.Indicator) :
  Reachable st →
  (to, typing nm flag sid) ∈ emits (trace_of (handle env socket ev st)) →
  let shown :=
    Client.Ok (if flag
               then {| Client.textContent := nm ++ Client.TEXT_TYPING;
                       Client.hidden := false |}
               else {| Client.textContent := Client.textContent el;
                       Client.hidden := true |}) in
  (userName = nm →
     Client.on_typing Number_toString userName (typing_payload nm flag sid) el
     = Client.Ok el)
  ∧ (userName ≠ nm →
     Client.on_typing Number_toString userName (typing_payload nm flag sid) el
     = shown)
  ∧ (∀ value,
       Client.sanitizeText Number_toString (JString value) 40 = Client.Ok userName →
       validateName (JString userName) = Some nm →
       (userName = nm ↔ is_ws (default 0 (last userName)) = false)
       ∧ Client.on_typing Number_toString userName (typing_payload nm flag sid) el
         = if is_ws (default 0 (last userName)) then shown else Client.Ok el).
Proof.
  intros Hreach Hin shown.
  destruct (typing_emission_inv env socket ev st to nm flag sid Hin) as (u & Hu & ->).
  pose proof (Reachable_names_valid st Hreach socket u Hu) as Hne.
  assert (Hsame : userName = name u →
            Client.on_typing Number_toString userName
              (typing_payload (name u) flag sid) el = Client.Ok el).
  { intros H. rewrite (on_typing_payload _ _ _ _ _ _ Hne).
    by rewrite bool_decide_true. }
  assert (Hother : userName ≠ name u →
            Client.on_typing Number_toString userName
              (typing_payload (name u) flag sid) el = shown).
  { intros H. rewrite (on_typing_payload _ _ _ _ _ _ Hne).
    rewrite bool_decide_false by done. subst shown. by destruct flag. }
  split; [exact Hsame|]. split; [exact Hother|].
  intros value Hform Hreg.
  pose proof (form_name_registered Number_toString value userName (name u)
                Hform Hreg) as Hnm.
  assert (Hiff : userName = name u ↔ is_ws (default 0 (last userName)) = false).
  { rewrite Hnm. rewrite <- trimEnd_same_iff. split; congruence. }
  split; [exact Hiff|].
  destruct (is_ws (default 0 (last userName))) eqn:E.
  - apply Hother. intros H. apply Hiff in H. congruence.
  - apply Hsame. by apply Hiff.
Qed.

(** ** The further properties at work on the sample session *)

Lemma users_ann_joined_a : users ann_joined !! socket_a = Some {| name := utf16 "Ann" |}.
Proof. reflexivity. Defined.

Lemma users_ann_joined_b : users ann_joined !! socket_b = None.
Proof. reflexivity. Defined.

Lemma sample_chat_emitted :
  (ToAll, chat_message sample_message)
    ∈ emits (trace_of (handle sample_env socket_a sample_chat ann_joined)).
Proof. vm_compute. left. Defined.

Lemma sample_typing_emitted :
  (ToAll, typing (utf16 "Ann") true socket_a)
    ∈ emits (trace_of (handle sample_env socket_a (EvTyping (JBool true)) ann_joined)).
Proof. vm_compute. left. Defined.

(** X3 at work: a blank name. *)
Lemma X3_join_invalid_name_witness :
  no_fault sample_env
  ∧ validateName (JString (utf16 "   ")) = None
  ∧ handle sample_env socket_b (EvJoin (JString (utf16 "   "))) ann_joined
    = (Normal tt, advance ann_joined,
       [Emit (ToOne socket_b) (error_message MSG_BAD_NAME)]).
Proof.
  split; [exact no_fault_sample|]. split; [reflexivity|].
  exact (proj1 (X3_join_invalid_name sample_env socket_b (JString (utf16 "   "))
                  ann_joined no_fault_sample eq_refl)).
Defined.

(** X4 at work: Ann joins again as Anna. *)
Lemma X4_rejoin_keeps_count_witness :
  no_fault sample_env
  ∧ users ann_joined !! socket_a = Some {| name := utf16 "Ann" |}
  ∧ validateName (JString (utf16 "Anna")) = Some (utf16 "Anna")
  ∧ size (users (state_of (handle sample_env socket_a
                             (EvJoin (JString (utf16 "Anna"))) ann_joined)))
    = size (users ann_joined).
Proof.
  split; [exact no_fault_sample|]. split; [exact users_ann_joined_a|].
  split; [reflexivity|].
  exact (proj1 (proj2 (X4_rejoin_keeps_count sample_env socket_a
                         (JString (utf16 "Anna")) (utf16 "Anna") _ ann_joined
                         no_fault_sample users_ann_joined_a eq_refl))).
Defined.

(** X5 at work: Bob joins the chat of Ann and leaves. *)
Lemma X5_join_then_disconnect_witness :
  no_fault sample_env
  ∧ users ann_joined !! socket_b = None
  ∧ validateName (JString (utf16 "Bob")) = Some (utf16 "Bob")
  ∧ users (state_of (run sample_env
                       [ (socket_b, EvJoin (JString (utf16 "Bob")));
                         (socket_b, EvDisconnect JNull) ] ann_joined))
    = users ann_joined.
Proof.
  split; [exact no_fault_sample|]. split; [exact users_ann_joined_b|].
  split; [reflexivity|].
  exact (proj1 (proj2 (X5_join_then_disconnect sample_env socket_b
                         (JString (utf16 "Bob")) JNull (utf16 "Bob") ann_joined
                         no_fault_sample users_ann_joined_b eq_refl))).
Defined.

(** X6 at work: the disconnect of Bob and the entry of Ann. *)
Lemma X6_other_entries_untouched_witness :
  socket_a ≠ socket_b
  ∧ users (state_of (handle sample_env socket_b (EvDisconnect JNull) ann_joined))
      !! socket_a
    = users ann_joined !! socket_a.
Proof.
  assert (H : socket_a ≠ socket_b) by discriminate.
  split; [exact H|].
  exact (X6_other_entries_untouched sample_env socket_b socket_a
           (EvDisconnect JNull) ann_joined H).
Defined.

(** X8 at work: the name of Ann. *)
Lemma X8_registered_names_normalized_witness :
  Reachable ann_joined
  ∧ users ann_joined !! socket_a = Some {| name := utf16 "Ann" |}
  ∧ validateName (JString (utf16 "Ann")) = Some (utf16 "Ann").
Proof.
  split; [exact Reachable_ann_joined|]. split; [exact users_ann_joined_a|].
  exact (proj2 (proj2 (proj2 (proj2 (proj2
           (X8_registered_names_normalized ann_joined socket_a _
              Reachable_ann_joined users_ann_joined_a)))))).
Defined.

(** X9 at work: Bob, not joined, sends a chat message. *)
Lemma X9_unjoined_cannot_broadcast_witness :
  users ann_joined !! socket_b = None
  ∧ (∀ rawName, EvChatMessage JNull ≠ EvJoin rawName)
  ∧ (ToOne socket_b, error_message MSG_NAME_FIRST)
      ∈ emits (trace_of (handle sample_env socket_b (EvChatMessage JNull) ann_joined))
  ∧ ToOne socket_b = ToOne socket_b.
Proof.
  assert (Hev : ∀ rawName, EvChatMessage JNull ≠ EvJoin rawName)
    by (intros rawName; discriminate).
  assert (Hin : (ToOne socket_b, error_message MSG_NAME_FIRST)
                  ∈ emits (trace_of (handle sample_env socket_b
                                       (EvChatMessage JNull) ann_joined)))
    by (vm_compute; left).
  split; [exact users_ann_joined_b|]. split; [exact Hev|]. split; [exact Hin|].
  exact (proj1 (X9_unjoined_cannot_broadcast sample_env socket_b
                  (EvChatMessage JNull) ann_joined (ToOne socket_b)
                  (error_message MSG_NAME_FIRST) users_ann_joined_b Hev Hin)).
Defined.

(** X10 at work: the message of Ann. *)
Lemma X10_chat_broadcast_integrity_witness :
  (ToAll, chat_message sample_message)
    ∈ emits (trace_of (handle sample_env socket_a sample_chat ann_joined))
  ∧ ∃ payload u,
      sample_chat = EvChatMessage payload
      ∧ users ann_joined !! socket_a = Some u
      ∧ author sample_message = name u
      ∧ text sample_message = sanitize (optional_get payload (utf16 "text")) 1000
      ∧ text sample_message ≠ []
      ∧ (length (text sample_message) ≤ 1000)%nat.
Proof.
  split; [exact sample_chat_emitted|].
  exact (proj2 (X10_chat_broadcast_integrity sample_env socket_a sample_chat
                  ann_joined ToAll sample_message sample_chat_emitted)).
Defined.

(** X11 at work: Ann is typing. *)
Lemma X11_typing_broadcast_integrity_witness :
  (ToAll, typing (utf16 "Ann") true socket_a)
    ∈ emits (trace_of (handle sample_env socket_a (EvTyping (JBool true)) ann_joined))
  ∧ socket_a = socket_a.
Proof.
  split; [exact sample_typing_emitted|].
  exact (proj1 (proj2 (X11_typing_broadcast_integrity sample_env socket_a
                         (EvTyping (JBool true)) ann_joined ToAll (utf16 "Ann")
                         true socket_a sample_typing_emitted))).
Defined.

(** X12 at work: [sanitizeText(null, 40)]. *)
Lemma X12_sanitizeText_shape_witness :
  (0 ≤ 40)%Z
  ∧ Client.sanitizeText sample_Number_toString JNull 40 = Client.Ok [].
Proof.
  assert (H : (0 ≤ 40)%Z) by lia.
  split; [exact H|].
  exact (proj2 (X12_sanitizeText_shape sample_Number_toString JNull 40 H)).
Defined.

(** X13 at work: the name typed as Ann between blanks. *)
Lemma X13_login_name_accepted_witness :
  Client.sanitizeText sample_Number_toString (JString (utf16 "  Ann   ")) 40
    = Client.Ok (utf16 "Ann")
  ∧ utf16 "Ann" ≠ []
  ∧ validateName (JString (utf16 "Ann")) = Some (trimEnd (utf16 "Ann")).
Proof.
  assert (Hne : utf16 "Ann" ≠ []) by discriminate.
  split; [reflexivity|]. split; [exact Hne|].
  exact (proj1 (X13_login_name_accepted sample_Number_toString
                  (utf16 "  Ann   ") (utf16 "Ann") eq_refl Hne)).
Defined.

(** X14 at work: Ann sends a text from a ready Socket.IO transport. *)
Lemma X14_sent_message_is_broadcast_witness :
  Client.sanitizeText sample_Number_toString (JString (utf16 " hi  there ")) 1000
    = Client.Ok (utf16 "hi there")
  ∧ utf16 "hi there" ≠ []
  ∧ Client.sendMessage sample_Number_toString
      (Some {| Client.kind := Client.socketio; Client.ready := true |})
      (JString (utf16 " hi  there "))
    = Client.Ok [Client.emit (utf16 "chat_message")
                   (JObject [(utf16 "text", JString (utf16 "hi there"))])].
Proof.
  assert (Hne : utf16 "hi there" ≠ []) by discriminate.
  split; [reflexivity|]. split; [exact Hne|].
  exact (proj1 (proj2 (X14_sent_message_is_broadcast sample_Number_toString
                         sample_env socket_a ann_joined {| name := utf16 "Ann" |}
                         {| Client.kind := Client.socketio; Client.ready := true |}
                         (utf16 " hi  there ") (utf16 "hi there") eq_refl)
                  eq_refl eq_refl Hne)).
Defined.

(** X15 at work: a message whose timestamp is not a number. *)
Lemma X15_accepted_message_shape_witness :
  Client.validateIncomingMessage sample_Number_toString sample_StringToNumber
    (num_of_Z 5)
    (JObject [ (utf16 "author", JString (utf16 " Ann "));
               (utf16 "text", JString (utf16 "hi")) ])
  = Client.Ok (Some {| Client.author := utf16 "Ann"; Client.text := utf16 "hi";
                       Client.ts := num_of_Z 5 |})
  ∧ Client.author {| Client.author := utf16 "Ann"; Client.text := utf16 "hi";
                     Client.ts := num_of_Z 5 |} ≠ [].
Proof.
  assert (H : Client.validateIncomingMessage sample_Number_toString
                sample_StringToNumber (num_of_Z 5)
                (JObject [ (utf16 "author", JString (utf16 " Ann "));
                           (utf16 "text", JString (utf16 "hi")) ])
              = Client.Ok (Some {| Client.author := utf16 "Ann";
                                   Client.text := utf16 "hi";
                                   Client.ts := num_of_Z 5 |}))
    by reflexivity.
  split; [exact H|].
  exact (proj1 (proj2 (X15_accepted_message_shape sample_Number_toString
                         sample_StringToNumber (num_of_Z 5) _ _ H))).
Defined.

(** X16 at work: a number instead of a message. *)
Lemma X16_validateIncomingMessage_returns_witness :
  Client.typeof_object (JNumber (NumFinite false 42 0)) = false
  ∧ Client.validateIncomingMessage sample_Number_toString sample_StringToNumber
      NumNaN (JNumber (NumFinite false 42 0))
    = Client.Ok None.
Proof.
  split; [reflexivity|].
  exact (proj1 (X16_validateIncomingMessage_returns sample_Number_toString
                  sample_StringToNumber NumNaN (JNumber (NumFinite false 42 0)))
           (or_introl eq_refl)).
Defined.

(** X17 at work: the message of Ann reaches a page. *)
Lemma X17_broadcast_passes_client_witness :
  Reachable ann_joined
  ∧ (ToAll, chat_message sample_message)
      ∈ emits (trace_of (handle sample_env socket_a sample_chat ann_joined))
  ∧ (0 < ts sample_message)%Z
  ∧ Client.validateIncomingMessage sample_Number_toString sample_StringToNumber
      NumNaN (message_payload sample_message)
    = Client.Ok (Some {| Client.author := utf16 "Ann";
                         Client.text := utf16 "hi there";
                         Client.ts := num_of_Z 1700000000002 |}).
Proof.
  assert (Hts : (0 < ts sample_message)%Z) by (simpl; lia).
  split; [exact Reachable_ann_joined|]. split; [exact sample_chat_emitted|].
  split; [exact Hts|].
  exact (X17_broadcast_passes_client sample_Number_toString sample_StringToNumber
           NumNaN sample_env socket_a sample_chat ann_joined ToAll sample_message
           Reachable_ann_joined sample_chat_emitted Hts).
Defined.

(** X19 at work: the page of Ann, who typed her name between blanks,
    receives the typing event of Ann. *)
Lemma X19_typing_indicator_witness :
  Reachable ann_joined
  ∧ (ToAll, typing (utf16 "Ann") true socket_a)
      ∈ emits (trace_of (handle sample_env socket_a (EvTyping (JBool true)) ann_joined))
  ∧ Client.sanitizeText sample_Number_toString (JString (utf16 "  Ann   ")) 40
    = Client.Ok (utf16 "Ann")
  ∧ validateName (JString (utf16 "Ann")) = Some (utf16 "Ann")
  ∧ Client.on_typing sample_Number_toString (utf16 "Ann")
      (typing_payload (utf16 "Ann") true socket_a)
      {| Client.textContent := []; Client.hidden := true |}
    = Client.Ok {| Client.textContent := []; Client.hidden := true |}
  ∧ Client.on_typing sample_Number_toString (utf16 "Bob")
      (typing_payload (utf16 "Ann") true socket_a)
      {| Client.textContent := []; Client.hidden := true |}
    = Client.Ok {| Client.textContent := utf16 "Ann печатает…";
                   Client.hidden := false |}.
Proof.
  assert (Hbob : utf16 "Bob" ≠ utf16 "Ann") by discriminate.
  split; [exact Reachable_ann_joined|]. split; [exact sample_typing_emitted|].
  split; [reflexivity|]. split; [reflexivity|]. split.
  - exact (proj2 (proj2 (proj2 (X19_typing_indicator sample_Number_toString
             sample_env socket_a (EvTyping (JBool true)) ann_joined ToAll
             (utf16 "Ann") true socket_a (utf16 "Ann")
             {| Client.textContent := []; Client.hidden := true |}
             Reachable_ann_joined sample_typing_emitted))
           (utf16 "  Ann   ") eq_refl eq_refl)).
  - exact (proj1 (proj2 (X19_typing_indicator sample_Number_toString
             sample_env socket_a (EvTyping (JBool true)) ann_joined ToAll
             (utf16 "Ann") true socket_a (utf16 "Bob")
             {| Client.textContent := []; Client.hidden := true |}
             Reachable_ann_joined sample_typing_emitted)) Hbob).
Defined.
